(** * A shallow embedding of [scraper.py] (AnthropicDocsScraper)

    The development follows the source file top-down:

    - Python string helpers used by the scraper ([str.strip], [str.split],
      [str.endswith], ["/".join]);
    - a model of the two standard-library services the path mapper relies on
      ([urllib.parse.urlparse(url).path] and [pathlib] joins);
    - [url_to_path], [is_file_recent], [should_do_full_rebuild];
    - a world (file system, clock, event trace) with a small
      state-and-exception monad, in which [fetch_llms_txt],
      [backup_docs_folder], [download_file], [init_build_async] and
      [update_build_async] are written statement by statement;
    - the properties of these functions.

    Conventions.  Python [str] values are Rocq [string]s (byte strings);
    Python [int]s and time stamps are [Z]; a [pathlib.Path] is a record of
    its root and its parts. *)

From Stdlib Require Import ZArith Lia Ascii String.
From stdpp Require Import base tactics option list strings gmap fin_maps.

Local Open Scope string_scope.
Local Open Scope list_scope.
Local Open Scope Z_scope.

(** ** Python string primitives *)

Module PyStr.

(** [s.lstrip(c)] for a one-character set. *)
Fixpoint lstrip (c : ascii) (s : string) : string :=
  match s with
  | String a s' => if Ascii.eqb a c then lstrip c s' else s
  | EmptyString => EmptyString
  end.

(** [s.rstrip(c)] for a one-character set. *)
Fixpoint rstrip (c : ascii) (s : string) : string :=
  match s with
  | EmptyString => EmptyString
  | String a s' =>
      match rstrip c s' with
      | EmptyString => if Ascii.eqb a c then EmptyString else String a EmptyString
      | r => String a r
      end
  end.

(** [s.strip(c)]. *)
Definition strip (c : ascii) (s : string) : string := rstrip c (lstrip c s).

(** [s.split(c)] with an explicit one-character separator: the result is
    never the empty list, and ["".split("/") == [""]]. *)
Fixpoint split (c : ascii) (s : string) : list string :=
  match s with
  | EmptyString => [EmptyString]
  | String a s' =>
      if Ascii.eqb a c then EmptyString :: split c s'
      else match split c s' with
           | [] => [String a EmptyString]
           | h :: t => String a h :: t
           end
  end.

(** [sep.join(l)]. *)
Definition join (sep : string) (l : list string) : string := String.concat sep l.

(** [s.endswith(suffix)]. *)
Definition endswith (s suffix : string) : bool :=
  let n := String.length s in
  let m := String.length suffix in
  (m <=? n)%nat && String.eqb (substring (n - m) m s) suffix.

(** [l[:-1]]. *)
Definition but_last {A} (l : list A) : list A := removelast l.

(** [c in s]. *)
Fixpoint has_char (c : ascii) (s : string) : bool :=
  match s with
  | EmptyString => false
  | String a s' => Ascii.eqb a c || has_char c s'
  end.

(** [s.split(c, 1)[0]]: the part of [s] before the first [c]. *)
Fixpoint cut_at (c : ascii) (s : string) : string :=
  match s with
  | EmptyString => EmptyString
  | String a s' => if Ascii.eqb a c then EmptyString else String a (cut_at c s')
  end.

End PyStr.

(** ** [urllib.parse.urlparse(url).path]

    The standard library is not part of the repository; this is a model of
    the path component computed by [urlparse] on the inputs on which it
    returns (its [ValueError] on unbalanced brackets in the host is not
    modelled).  It follows [urlsplit]: leading control characters and blanks
    are dropped, tabs and line breaks removed, then the scheme, the network
    location, the fragment, the query and the parameters of the last segment
    are cut off. *)

Module UrlParse.

Definition code (a : ascii) : nat := nat_of_ascii a.

Definition is_alpha (a : ascii) : bool :=
  ((65 <=? code a) && (code a <=? 90) || (97 <=? code a) && (code a <=? 122))%nat.

Definition is_digit (a : ascii) : bool := ((48 <=? code a) && (code a <=? 57))%nat.

(** [scheme_chars]: letters, digits and [+-.]. *)
Definition is_scheme_char (a : ascii) : bool :=
  is_alpha a || is_digit a
  || Ascii.eqb a "+" || Ascii.eqb a "-" || Ascii.eqb a ".".

Definition lower (a : ascii) : ascii :=
  if ((65 <=? code a) && (code a <=? 90))%nat then ascii_of_nat (code a + 32) else a.

Fixpoint lowers (s : string) : string :=
  match s with
  | EmptyString => EmptyString
  | String a s' => String (lower a) (lowers s')
  end.

(** [url.lstrip(_WHATWG_C0_CONTROL_OR_SPACE)]. *)
Fixpoint lstrip_c0 (s : string) : string :=
  match s with
  | String a s' => if (code a <=? 32)%nat then lstrip_c0 s' else s
  | EmptyString => EmptyString
  end.

(** Removal of [_UNSAFE_URL_BYTES_TO_REMOVE] (tab, CR, LF). *)
Fixpoint remove_unsafe (s : string) : string :=
  match s with
  | EmptyString => EmptyString
  | String a s' =>
      if ((code a =? 9) || (code a =? 10) || (code a =? 13))%nat
      then remove_unsafe s' else String a (remove_unsafe s')
  end.

(** The characters before the first [":"], when they are all scheme
    characters, and what follows the colon. *)
Fixpoint scheme_prefix (s : string) : option (string * string) :=
  match s with
  | EmptyString => None
  | String a s' =>
      if Ascii.eqb a ":" then Some (EmptyString, s')
      else if is_scheme_char a then
             match scheme_prefix s' with
             | Some (p, r) => Some (String a p, r)
             | None => None
             end
           else None
  end.

(** [(scheme, rest)]; the scheme is empty when the URL has none. *)
Definition split_scheme (s : string) : string * string :=
  match s with
  | String a _ =>
      if is_alpha a then
        match scheme_prefix s with
        | Some (p, r) => (lowers p, r)
        | None => (EmptyString, s)
        end
      else (EmptyString, s)
  | EmptyString => (EmptyString, s)
  end.

(** [_splitnetloc(url, 2)[1]]: what is left from the first of [/?#] on. *)
Fixpoint skip_netloc (s : string) : string :=
  match s with
  | EmptyString => EmptyString
  | String a s' =>
      if Ascii.eqb a "/" || Ascii.eqb a "?" || Ascii.eqb a "#" then s
      else skip_netloc s'
  end.

Definition drop_netloc (s : string) : string :=
  match s with
  | String "/" (String "/" s') => skip_netloc s'
  | _ => s
  end.

Definition uses_params : list string :=
  [""; "ftp"; "hdl"; "prospero"; "http"; "imap"; "https"; "shttp"; "rtsp";
   "rtspu"; "sip"; "sips"; "mms"; "sftp"; "tel"].

(** [_splitparams(url)[0]]: cut at the first [";"] found from the last
    ["/"] on. *)
Fixpoint splitparams (s : string) : string :=
  match s with
  | EmptyString => EmptyString
  | String a s' =>
      if PyStr.has_char "/" s then String a (splitparams s')
      else PyStr.cut_at ";" s
  end.

Definition path (url : string) : string :=
  let url := remove_unsafe (lstrip_c0 url) in
  let '(scheme, url) := split_scheme url in
  let url := drop_netloc url in
  let url := PyStr.cut_at "#" url in
  let url := PyStr.cut_at "?" url in
  if existsb (String.eqb scheme) uses_params then splitparams url else url.

End UrlParse.

(** ** [pathlib.Path] (POSIX flavour) *)

Record PurePath := MkPath { root : string; parts : list string }.

Global Instance PurePath_eq_dec : EqDecision PurePath.
Proof. solve_decision. Defined.

Global Instance PurePath_countable : Countable PurePath.
Proof.
  refine (inj_countable' (fun p => (root p, parts p))
                         (fun x => MkPath (fst x) (snd x)) _).
  by intros [].
Defined.

Module Pathlib.

(** The root of a path string: ["//"] for exactly two leading slashes,
    ["/"] for any other number of them, empty for a relative path. *)
Definition splitroot (s : string) : string :=
  match s with
  | String "/" (String "/" (String "/" _)) => "/"
  | String "/" (String "/" _) => "//"
  | String "/" _ => "/"
  | _ => ""
  end.

Definition keep_part (x : string) : bool :=
  negb (String.eqb x "") && negb (String.eqb x ".").

(** [Path(s)]: empty and ["."] components are dropped. *)
Definition Path (s : string) : PurePath :=
  {| root := splitroot s; parts := List.filter keep_part (PyStr.split "/" s) |}.

(** [p / s]: an absolute right operand replaces the left one. *)
Definition truediv (p : PurePath) (s : string) : PurePath :=
  let q := Path s in
  if String.eqb (root q) "" then {| root := root p; parts := parts p ++ parts q |}
  else q.

(** [p.parent]. *)
Definition parent (p : PurePath) : PurePath :=
  {| root := root p; parts := removelast (parts p) |}.

(** [p.name]. *)
Definition name (p : PurePath) : string := List.last (parts p) "".

(** [str(p)]. *)
Definition str (p : PurePath) : string :=
  match root p, parts p with
  | EmptyString, [] => "."
  | r, l => r +:+ PyStr.join "/" l
  end.

End Pathlib.

Infix "</>" := Pathlib.truediv (at level 40, left associativity).

(** ** [AnthropicDocsScraper.url_to_path] (lines 93-116) *)

(** The list [path_parts] after the language prefix has been removed. *)
Definition path_parts_of (parsed_path : string) : list string :=
  let path_parts := PyStr.split "/" (PyStr.strip "/" parsed_path) in
  match path_parts with
  | first :: rest => if String.eqb first "en" then rest else path_parts
  | [] => path_parts
  end.

Definition url_to_path (base_dir : PurePath) (url section : string) : PurePath :=
  let path_parts := path_parts_of (UrlParse.path url) in
  let dir_path :=
    if negb (String.eqb section "") && negb (String.eqb section "docs")
    then base_dir </> section </> PyStr.join "/" (PyStr.but_last path_parts)
    else base_dir </> PyStr.join "/" (PyStr.but_last path_parts) in
  let filename :=
    match path_parts with
    | _ :: _ =>
        let filename := List.last path_parts "" in
        if negb (PyStr.endswith filename ".md") then filename +:+ ".md" else filename
    | [] => "index.md"
    end in
  dir_path </> filename.

(** ** The file system

    A node is a directory or a regular file; both carry the modification
    time reported by [stat().st_mtime].  The working directory and the root
    (the paths without parts) always exist. *)

Inductive node :=
| Dir (mtime : Z)
| File (content : string) (mtime : Z).

Definition node_mtime (n : node) : Z :=
  match n with Dir m => m | File _ m => m end.

Abbreviation filesystem := (gmap PurePath node).

Module FS.

Definition stat (fs : filesystem) (p : PurePath) : option node :=
  match parts p with
  | [] => Some (Dir 0)
  | _ => fs !! p
  end.

(** [p.exists()]. *)
Definition exists_ (fs : filesystem) (p : PurePath) : bool :=
  match stat fs p with Some _ => true | None => false end.

(** [p.stat().st_mtime], for a path that exists. *)
Definition st_mtime (fs : filesystem) (p : PurePath) : Z :=
  match stat fs p with Some n => node_mtime n | None => 0 end.

(** Creating or removing an entry updates the time stamp of the directory
    that holds it. *)
Definition touch_parent (now : Z) (p : PurePath) (fs : filesystem) : filesystem :=
  alter (fun n => match n with Dir _ => Dir now | f => f end) (Pathlib.parent p) fs.

(** [p.mkdir(exist_ok=True)]; [None] when it raises. *)
Definition mkdir (now : Z) (p : PurePath) (fs : filesystem) : option filesystem :=
  match stat fs p with
  | Some (Dir _) => Some fs
  | Some (File _ _) => None
  | None =>
      match stat fs (Pathlib.parent p) with
      | Some (Dir _) => Some (<[p := Dir now]> (touch_parent now p fs))
      | _ => None
      end
  end.

(** The ancestors [todo] of a directory are visited from the top; [done] are
    the parts already known to be directories. *)
Fixpoint mkdir_chain (now : Z) (r : string) (done todo : list string)
    (fs : filesystem) : option filesystem :=
  match todo with
  | [] => Some fs
  | x :: todo' =>
      let q := MkPath r (done ++ [x]) in
      match fs !! q with
      | Some (Dir _) => mkdir_chain now r (done ++ [x]) todo' fs
      | Some (File _ _) => None
      | None => mkdir_chain now r (done ++ [x]) todo' (<[q := Dir now]> (touch_parent now q fs))
      end
  end.

(** [p.mkdir(parents=True, exist_ok=True)]; [None] when it raises. *)
Definition mkdir_parents (now : Z) (p : PurePath) (fs : filesystem) : option filesystem :=
  mkdir_chain now (root p) [] (parts p) fs.

(** [open(p, "w")]: the file is created or truncated; [None] when it
    raises (the path is a directory, or its parent is not one). *)
Definition open_w (now : Z) (p : PurePath) (fs : filesystem) : option filesystem :=
  match stat fs p, stat fs (Pathlib.parent p) with
  | Some (File _ _), Some (Dir _) => Some (<[p := File "" now]> fs)
  | None, Some (Dir _) => Some (<[p := File "" now]> (touch_parent now p fs))
  | _, _ => None
  end.

(** What an open file holds once [written] has reached it. *)
Definition set_content (now : Z) (p : PurePath) (written : string)
    (fs : filesystem) : filesystem :=
  <[p := File written now]> fs.

(** [p] itself or a path below it. *)
Definition within (p q : PurePath) : bool :=
  String.eqb (root p) (root q) && bool_decide (parts p `prefix_of` parts q).

(** [shutil.rmtree(p)]; [None] when it raises ([p] is not a directory). *)
Definition rmtree (now : Z) (p : PurePath) (fs : filesystem) : option filesystem :=
  match stat fs p with
  | Some (Dir _) => Some (touch_parent now p (filter (fun kv => within p kv.1 = false) fs))
  | _ => None
  end.

End FS.

(** ** [is_file_recent] and [should_do_full_rebuild] (lines 118-133) *)

Record scraper := {
  base_dir : PurePath;
  llms_url : string;
  requests_per_second : Z;
  cache_seconds : Z
}.

(** [__init__] (lines 41-47). *)
Definition AnthropicDocsScraper (base_dir : string) (requests_per_second cache_hours : Z)
  : scraper :=
  {| base_dir := Pathlib.Path base_dir;
     llms_url := "https://docs.anthropic.com/llms.txt";
     requests_per_second := requests_per_second;
     cache_seconds := cache_hours * 3600 |}.

(** The scraper built by [main]. *)
Definition default_scraper : scraper := AnthropicDocsScraper "docs" 5 1.

(** [now] is the value of [time.time()]. *)
Definition is_file_recent (self : scraper) (fs : filesystem) (now : Z)
    (file_path : PurePath) : bool :=
  if negb (FS.exists_ fs file_path) then false
  else
    let file_age := now - FS.st_mtime fs file_path in
    file_age <? cache_seconds self.

Definition llms_file : PurePath := Pathlib.Path "llms.txt".

Definition should_do_full_rebuild (self : scraper) (fs : filesystem) (now : Z) : bool :=
  if negb (FS.exists_ fs (base_dir self)) then false
  else
    let llms_cache_file := llms_file in
    negb (is_file_recent self fs now llms_cache_file).

(** ** Exceptions, events and the world *)

(** Only the split that [except Exception] makes matters: a
    [BaseException] that is not an [Exception] ([asyncio.CancelledError],
    [KeyboardInterrupt]) passes through it. *)
Inductive exn :=
| Exception (kind : string)
| BaseException (kind : string).

Definition is_Exception (e : exn) : bool :=
  match e with Exception _ => true | BaseException _ => false end.

Definition is_UnicodeDecodeError (e : exn) : bool :=
  match e with
  | Exception kind => String.eqb kind "UnicodeDecodeError"
  | BaseException _ => false
  end.

(** What the process does to the outside, in order. *)
Inductive event :=
| EvManifestGet (url : string)
| EvAcquire
| EvGet (url : string)
| EvSleep (seconds : Z)
| EvMkdir (p : PurePath)
| EvOpen (p : PurePath)
| EvBackup (name : string)
| EvRmtree (p : PurePath).

(** The world of a run.  [now] is the starting time plus the sleeps asked
    for so far: it moves in [sleep] only.  Requests, waits for a permit and
    writes take no time here, so that [now] is a lower bound of the clock
    of a real run, not its value. *)
Record world := MkWorld {
  fs : filesystem;
  now : Z;
  trace : list event
}.

(** Computations that read and change the world and may raise. *)
Definition M (A : Type) : Type := world -> (exn + A) * world.

Global Instance M_ret : MRet M := fun A x w => (inr x, w).

Global Instance M_bind : MBind M := fun A B f m w =>
  match m w with
  | (inr x, w') => f x w'
  | (inl e, w') => (inl e, w')
  end.

Definition raise {A} (e : exn) : M A := fun w => (inl e, w).

Definition emit (ev : event) : M unit := fun w =>
  (inr tt, MkWorld (fs w) (now w) (trace w ++ [ev])).

Definition get_fs : M filesystem := fun w => (inr (fs w), w).

Definition set_fs (fs' : filesystem) : M unit := fun w =>
  (inr tt, MkWorld fs' (now w) (trace w)).

(** [time.time()]. *)
Definition time : M Z := fun w => (inr (now w), w).

(** [await asyncio.sleep(seconds)]. *)
Definition sleep (seconds : Z) : M unit := fun w =>
  (inr tt, MkWorld (fs w) (now w + seconds) (trace w ++ [EvSleep seconds])).

(** A file-system call that raises [OSError] when the model returns [None]. *)
Definition fs_call (op : Z -> filesystem -> option filesystem) : M unit :=
  t ← time; fs0 ← get_fs;
  match op t fs0 with
  | Some fs' => set_fs fs'
  | None => raise (Exception "OSError")
  end.

(** ** What the environment answers

    One HTTP exchange: [session.get] raises, or yields a response with a
    status, whose body [text()] decodes or fails to, and whose raw bytes
    [read()] returns or fails to. *)
Record response := {
  status : Z;
  text : exn + string;
  read : exn + string
}.

(** A fault of the disk itself (no space, no permission), independent of the
    shape of the tree. *)
Inductive disk_fault :=
| NoFault
| MkdirFault
| OpenFault
| WriteFault (written : string).

Record attempt_env := {
  get : exn + response;
  disk : disk_fault
}.

(** Python values that [download_file] returns and [gather] collects. *)
Inductive pyobj :=
| PyBool (b : bool)
| PyStr (s : string)
| PyExc (e : exn).

Definition lift {A} (r : exn + A) : M A := fun w => (r, w).

(** [try: body / except Exception as e: handler e]. *)
Definition try_except {A} (body : M A) (handler : exn -> M A) : M A := fun w =>
  match body w with
  | (inl e, w') => if is_Exception e then handler e w' else (inl e, w')
  | (inr x, w') => (inr x, w')
  end.

(** What text mode makes of the characters of a file that is read: with
    the default [newline=None] a carriage return followed by a line feed,
    and a carriage return alone, come back as one line feed.  (Writing in
    text mode on POSIX leaves the characters as they are.) *)
Fixpoint universal_newlines (s : string) : string :=
  match s with
  | EmptyString => EmptyString
  | String c s' =>
      if Ascii.eqb c "013" then
        match s' with
        | String c' s'' =>
            if Ascii.eqb c' "010" then String "010" (universal_newlines s'')
            else String "010" (universal_newlines s')
        | EmptyString => String "010" EmptyString
        end
      else String c (universal_newlines s')
  end.

(** [open(p, "r").read()]. *)
Definition read_text (p : PurePath) : M string :=
  fs0 ← get_fs;
  match FS.stat fs0 p with
  | Some (File content _) => mret (universal_newlines content)
  | Some (Dir _) => raise (Exception "IsADirectoryError")
  | None => raise (Exception "FileNotFoundError")
  end.

(** [with open(p, "w") as f: f.write(content)], under a disk fault. *)
Definition write_file (fault : disk_fault) (p : PurePath) (content : string) : M unit :=
  emit (EvOpen p);;
  match fault with
  | OpenFault => raise (Exception "OSError")
  | WriteFault written =>
      fs_call (fun t => FS.open_w t p);;
      fs_call (fun t fs0 => Some (FS.set_content t p written fs0));;
      raise (Exception "OSError")
  | _ =>
      fs_call (fun t => FS.open_w t p);;
      fs_call (fun t fs0 => Some (FS.set_content t p content fs0))
  end.

(** [p.mkdir(parents=True, exist_ok=True)], under a disk fault. *)
Definition mkdir_parents (fault : disk_fault) (p : PurePath) : M unit :=
  emit (EvMkdir p);;
  match fault with
  | MkdirFault => raise (Exception "OSError")
  | _ => fs_call (fun t => FS.mkdir_parents t p)
  end.

(** The block [async with session.get(download_url) as response]
    (lines 167-177): the content and [is_binary], or the exception that
    leaves the block.  It depends on the environment only. *)
Definition receive (e : attempt_env) : exn + (string * bool) :=
  match get e with
  | inl ex => inl ex
  | inr response =>
      if 400 <=? status response then inl (Exception "ClientResponseError")
      else
        match text response with
        | inr content => inr (content, false)
        | inl ex =>
            if is_UnicodeDecodeError ex then
              match read response with
              | inr content => inr (content, true)
              | inl ex' => inl ex'
              end
            else inl ex
        end
  end.

(** The block [async with session.get(self.llms_url) as response]
    (lines 54-56): the text of the manifest, or the exception raised. *)
Definition receive_manifest (manifest : exn + response) : exn + string :=
  match manifest with
  | inl ex => inl ex
  | inr response =>
      if 400 <=? status response then inl (Exception "ClientResponseError")
      else text response
  end.

(** [sum(1 for result in results if cond(result))]. *)
Definition sum_1_for (cond : pyobj -> bool) (results : list pyobj) : Z :=
  fold_right (fun result acc => if cond result then 1 + acc else acc) 0 results.

(** [result is True]. *)
Definition is_True (result : pyobj) : bool :=
  match result with PyBool true => true | _ => false end.

(** [result == "cached"]. *)
Definition eq_cached (result : pyobj) : bool :=
  match result with PyStr s => String.eqb s "cached" | _ => false end.

(** [len(results)]. *)
Definition len {A} (l : list A) : Z := Z.of_nat (length l).

(** The three numbers of the final log line:
    downloaded, cached, failures (lines 248-250 and 296-298). *)
Record counts := { success_count : Z; cached_count : Z; fail_count : Z }.

Definition count_results (results : list pyobj) : counts :=
  let success_count := sum_1_for is_True results in
  let cached_count := sum_1_for eq_cached results in
  let fail_count := len results - success_count - cached_count in
  {| success_count := success_count; cached_count := cached_count;
     fail_count := fail_count |}.

(** An entry of the manifest. *)
Record url_info := { title : string; url : string; section : string }.

(** A coroutine object made by calling [download_file]: the call with its
    arguments, not yet run. *)
Record coroutine := {
  co_url : string;
  co_file_path : PurePath;
  co_force : bool;
  co_max_retries : Z
}.

(** [range(n)]. *)
Definition range (n : Z) : list nat := seq 0 (Z.to_nat n).

(** The command line accepted by [main]: exactly one of the two flags. *)
Inductive args := ArgInit | ArgUpdate.

(** ** The methods of the scraper that act on the world *)

Section Scraper.

Variable self : scraper.

(** The line scan of [fetch_llms_txt] (lines 75-91) is kept abstract: no
    property below depends on which entries it finds. *)
Variable parse_manifest : string -> list url_info.

(** [datetime.datetime.now().strftime("%Y%m%d_%H%M%S")] and the bytes that
    [tarfile] produces for a tree, both from the standard library. *)
Variable strftime : Z -> string.
Variable targz : PurePath -> filesystem -> string.

(** [fetch_llms_txt] (lines 49-91); [manifest] is the answer to the request
    for [llms_url]. *)
Definition fetch_llms_txt (manifest : exn + response) : M (list url_info) :=
  emit (EvManifestGet (llms_url self));;
  new_text ← lift (receive_manifest manifest);
  fs0 ← get_fs;
  (if FS.exists_ fs0 llms_file then
     old_text ← read_text llms_file;
     if negb (String.eqb old_text new_text)
     then write_file NoFault llms_file new_text
     else mret tt
   else write_file NoFault llms_file new_text);;
  mret (parse_manifest new_text).

(** [backup_docs_folder] (lines 135-149). *)
Definition backup_docs_folder : M (option string) :=
  fs0 ← get_fs;
  if negb (FS.exists_ fs0 (base_dir self)) then mret None
  else
    t ← time;
    let timestamp := strftime t in
    let backup_name := "docs_backup_" +:+ timestamp +:+ ".tar.gz" in
    emit (EvBackup backup_name);;
    write_file NoFault (Pathlib.Path backup_name) (targz (base_dir self) fs0);;
    mret (Some backup_name).

(** The URL that is requested (lines 161-165). *)
Definition download_url_of (url : string) : string :=
  if negb (PyStr.endswith url ".md") then url +:+ ".md" else url.

(** The body of the [try] (lines 161-191). *)
Definition attempt_body (e : attempt_env) (url : string) (file_path : PurePath) : M unit :=
  let download_url := download_url_of url in
  emit (EvGet download_url);;
  '(content, is_binary) ← lift (receive e);
  mkdir_parents (disk e) (Pathlib.parent file_path);;
  (* mode "wb" or mode "w" with UTF-8: the same bytes reach the file *)
  if is_binary : bool
  then write_file (disk e) file_path content
  else write_file (disk e) file_path content.

(** The handler of lines 193-206: [None] stands for falling through to the
    next iteration, [Some v] for [return v]. *)
Definition on_exception (attempt : nat) (max_retries : Z) : M (option pyobj) :=
  if Z.of_nat attempt <? max_retries then
    let wait_time := 2 ^ Z.of_nat attempt in
    sleep wait_time;; mret None
  else mret (Some (PyBool false)).

(** The loop [for attempt in range(max_retries + 1)] (lines 158-208).
    [async with self.rate_limiter] is the event [EvAcquire]: the limiter is
    taken to admit the caller, as it does when its rate is at least one
    request per period.  The [ValueError] that it raises for a smaller
    rate, outside the [try], and the time spent waiting for the permit are
    not modelled. *)
Fixpoint for_attempt (env : nat -> attempt_env) (url : string) (file_path : PurePath)
    (max_retries : Z) (attempts : list nat) : M pyobj :=
  match attempts with
  | [] => mret (PyBool false)
  | attempt :: attempts' =>
      emit EvAcquire;;
      returned ←
        try_except
          (attempt_body (env attempt) url file_path;; mret (Some (PyBool true)))
          (fun _ => on_exception attempt max_retries);
      match returned with
      | Some value => mret value
      | None => for_attempt env url file_path max_retries attempts'
      end
  end.

(** [download_file] (lines 151-208); [env attempt] is what the environment
    answers at that attempt.  The cache test of line 154 is taken to
    answer: an [OSError] of [Path.exists] or [stat] there, which would
    leave the call, is not modelled. *)
Definition download_file (env : nat -> attempt_env) (url : string) (file_path : PurePath)
    (force : bool) (max_retries : Z) : M pyobj :=
  t ← time; fs0 ← get_fs;
  if negb force && is_file_recent self fs0 t file_path then mret (PyStr "cached")
  else for_attempt env url file_path max_retries (range (max_retries + 1)).

Definition run_coroutine (env : nat -> attempt_env) (co : coroutine) : M pyobj :=
  download_file env (co_url co) (co_file_path co) (co_force co) (co_max_retries co).

(** [asyncio.gather] with [return_exceptions=True]: one result per task, in
    the order of the tasks; an exception that leaves a task becomes its
    result.  The tasks are run one after the other, which is one of the
    schedules of the event loop; [net i] answers the task at index [i].
    The exceptions that asyncio raises again instead of collecting
    ([KeyboardInterrupt], [SystemExit]) are not modelled. *)
Fixpoint gather (net : nat -> nat -> attempt_env) (i : nat) (tasks : list coroutine)
    (w : world) : list pyobj * world :=
  match tasks with
  | [] => ([], w)
  | task :: tasks' =>
      let '(r, w1) := run_coroutine (net i) task w in
      let result := match r with inr v => v | inl e => PyExc e end in
      let '(results, w2) := gather net (S i) tasks' w1 in
      (result :: results, w2)
  end.

(** [await asyncio.gather(...)] as a computation: it does not raise. *)
Definition await_gather (net : nat -> nat -> attempt_env) (tasks : list coroutine)
  : M (list pyobj) := fun w =>
  let '(results, w') := gather net 0 tasks w in (inr results, w').

(** [shutil.rmtree(p)]. *)
Definition rmtree (p : PurePath) : M unit :=
  emit (EvRmtree p);; fs_call (fun t => FS.rmtree t p).

(** The tasks of [init_build_async] (lines 234-241). *)
Definition init_tasks (urls : list url_info) : list coroutine :=
  map (fun url_info =>
         let file_path := url_to_path (base_dir self) (url url_info) (section url_info) in
         {| co_url := url url_info; co_file_path := file_path;
            co_force := true; co_max_retries := 3 |}) urls.

(** [init_build_async] (lines 210-254): the result is the triple that the
    last line logs. *)
Definition init_build_async (manifest : exn + response)
    (net : nat -> nat -> attempt_env) : M counts :=
  t ← time; fs0 ← get_fs;
  let should_rebuild := should_do_full_rebuild self fs0 t in
  urls ← fetch_llms_txt manifest;
  (if should_rebuild then
     backup_docs_folder;;
     fs1 ← get_fs;
     if FS.exists_ fs1 (base_dir self) then rmtree (base_dir self) else mret tt
   else mret tt);;
  emit (EvMkdir (base_dir self));;
  fs_call (fun t => FS.mkdir t (base_dir self));;
  let tasks := init_tasks urls in
  results ← await_gather net tasks;
  mret (count_results results).

(** The tasks of [update_build_async] (lines 276-289), all made before any
    of them runs; [fs0] is the file system at that time.  [url_to_path] and
    [Path.exists] are taken to answer: a [ValueError] of [urlparse] or an
    [OSError] there, which would stop the build, is not modelled. *)
Definition update_tasks (fs0 : filesystem) (urls : list url_info) : list coroutine :=
  map (fun url_info =>
         let file_path := url_to_path (base_dir self) (url url_info) (section url_info) in
         if FS.exists_ fs0 file_path
         then {| co_url := url url_info; co_file_path := file_path;
                 co_force := false; co_max_retries := 3 |}
         else {| co_url := url url_info; co_file_path := file_path;
                 co_force := true; co_max_retries := 3 |}) urls.

(** [update_build_async] (lines 260-304): [None] when it returns early
    because there is no output directory. *)
Definition update_build_async (manifest : exn + response)
    (net : nat -> nat -> attempt_env) : M (option counts) :=
  fs0 ← get_fs;
  if negb (FS.exists_ fs0 (base_dir self)) then mret None
  else
    urls ← fetch_llms_txt manifest;
    fs1 ← get_fs;
    let tasks := update_tasks fs1 urls in
    match tasks with
    | _ :: _ =>
        results ← await_gather net tasks;
        mret (Some (count_results results))
    | [] =>
        mret (Some {| success_count := 0; cached_count := 0; fail_count := 0 |})
    end.

(** The dispatch of [main] (lines 327-330) on a scraper. *)
Definition run_build (a : args) (manifest : exn + response)
    (net : nat -> nat -> attempt_env) : M (option counts) :=
  match a with
  | ArgInit => c ← init_build_async manifest net; mret (Some c)
  | ArgUpdate => update_build_async manifest net
  end.

End Scraper.

(** ** Reading a trace *)

(** The durations of the sleeps, in order. *)
Definition sleeps_of (tr : list event) : list Z :=
  omap (fun ev => match ev with EvSleep s => Some s | _ => None end) tr.

(** The URLs requested by the fetch attempts, in order. *)
Definition requests_of (tr : list event) : list string :=
  omap (fun ev => match ev with EvGet u => Some u | _ => None end) tr.

(** The number of permits taken from the rate limiter. *)
Definition acquired (tr : list event) : nat :=
  length (List.filter (fun ev => match ev with EvAcquire => true | _ => false end) tr).

(** The calls that create or change something on disk. *)
Definition touches_fs (ev : event) : bool :=
  match ev with
  | EvMkdir _ | EvOpen _ | EvBackup _ | EvRmtree _ => true
  | _ => false
  end.

(** ** The iterations of the retry loop, one by one *)

Section Attempts.

Variable env : nat -> attempt_env.
Variable url : string.
Variable file_path : PurePath.

(** The world in which iteration [attempt] starts when every earlier
    iteration has failed and slept: each of them took a permit, ran the
    body of the [try] and slept [2 ^ attempt]. *)
Fixpoint world_before (w : world) (attempt : nat) : world :=
  match attempt with
  | O => w
  | S a =>
      let w1 := (emit EvAcquire (world_before w a)).2 in
      let w2 := (attempt_body (env a) url file_path w1).2 in
      (sleep (2 ^ Z.of_nat a) w2).2
  end.

(** What the body of the [try] does at iteration [attempt], and the world
    it leaves. *)
Definition attempt_run (w : world) (attempt : nat) : (exn + unit) * world :=
  attempt_body (env attempt) url file_path (emit EvAcquire (world_before w attempt)).2.

(** An attempt fails when an [Exception] leaves the body of the [try]. *)
Definition fails (r : (exn + unit) * world) : Prop :=
  exists e, r.1 = inl e /\ is_Exception e = true.

(** It succeeds when the body runs to its [return True]. *)
Definition succeeds (r : (exn + unit) * world) : Prop := r.1 = inr tt.

End Attempts.

(** ** A small world to run the scraper in *)

Module Sample.

Definition docs : PurePath := Pathlib.Path "docs".
Definition setup : PurePath := Pathlib.Path "docs/guides/setup.md".
Definition intro : PurePath := Pathlib.Path "docs/intro.md".

(** An output tree whose one page was written at time 0; there is no local
    copy of the manifest. *)
Definition tree : filesystem :=
  <[setup := File "old" 0]> (<[Pathlib.Path "docs/guides" := Dir 0]> (<[docs := Dir 0]> ∅)).

Definition at_time (t : Z) : world := MkWorld tree t [].

Definition answers (body : string) : attempt_env :=
  {| get := inr {| status := 200; text := inr body; read := inr body |};
     disk := NoFault |}.

Definition refuses : attempt_env :=
  {| get := inl (Exception "ClientConnectorError"); disk := NoFault |}.

Definition not_found : attempt_env :=
  {| get := inr {| status := 404; text := inr ""; read := inr "" |}; disk := NoFault |}.

Definition cancelled : attempt_env :=
  {| get := inl (BaseException "CancelledError"); disk := NoFault |}.

(** Two refusals, then an answer. *)
Definition third_time (attempt : nat) : attempt_env :=
  if (attempt <? 2)%nat then refuses else answers "new".

Definition entries : list url_info :=
  [ {| title := "Setup"; url := "https://docs.anthropic.com/en/guides/setup";
       section := "docs" |};
    {| title := "Intro"; url := "https://docs.anthropic.com/en/intro"; section := "" |};
    {| title := "Gone"; url := "https://docs.anthropic.com/en/gone"; section := "" |};
    {| title := "Slow"; url := "https://docs.anthropic.com/en/slow"; section := "" |} ].

Definition parse (_ : string) : list url_info := entries.
Definition strftime (_ : Z) : string := "20260101_000000".
Definition targz (_ : PurePath) (_ : filesystem) : string := "archive".

Definition manifest : exn + response :=
  inr {| status := 200; text := inr "## Docs"; read := inr "## Docs" |}.

(** The answers to the four tasks: the second entry is fetched at the third
    attempt, the third is never found, the fourth task is cancelled. *)
Definition net (i : nat) : nat -> attempt_env :=
  match i with
  | 0%nat => fun _ => answers "fresh"
  | 1%nat => third_time
  | 2%nat => fun _ => not_found
  | _ => fun _ => cancelled
  end.

End Sample.

(** ** The design's wording of freshness and of the rebuild decision

    These two predicates follow the sentences of the design document, not
    the code; they are compared with the code below. *)

(** "Returns false if the path does not exist; otherwise true iff
    [now - modification_time(path) < window_seconds]." *)
Definition is_fresh_spec (fs : filesystem) (path : PurePath) (now window_seconds : Z) : Prop :=
  exists n, FS.stat fs path = Some n /\ now - node_mtime n < window_seconds.

(** "The output tree exists AND the sentinel file is not fresh relative to
    [window_seconds]." *)
Definition should_rebuild_spec (fs : filesystem) (tree sentinel_path : PurePath)
    (now window_seconds : Z) : Prop :=
  FS.exists_ fs tree = true /\ ~ is_fresh_spec fs sentinel_path now window_seconds.

(** A URL path without segments: nothing is left once it is split on ["/"]
    and the empty pieces are discarded. *)
Definition no_segments (parsed_path : string) : Prop :=
  List.filter (fun x => negb (String.eqb x "")) (PyStr.split "/" parsed_path) = [].

(** ** The line scan of [fetch_llms_txt] (lines 75-91)

    [str.strip()] and [str.lower()] depend on the Unicode tables of the
    interpreter; the scan takes them as parameters, so what is proved of it
    holds for the real ones.  [Manifest.strip] and [Manifest.lower] are
    these two functions on ASCII text. *)

Module Manifest.

(** [s.startswith(p)]. *)
Definition startswith (s p : string) : bool := String.prefix p s.

(** [p in s]. *)
Fixpoint contains (p s : string) : bool :=
  String.prefix p s
  || match s with
     | EmptyString => false
     | String _ s' => contains p s'
     end.

(** [s.replace(a, b)] for single characters. *)
Fixpoint replace (a b : ascii) (s : string) : string :=
  match s with
  | EmptyString => EmptyString
  | String c s' => String (if Ascii.eqb c a then b else c) (replace a b s')
  end.

(** [s[2:]]. *)
Definition from_2 (s : string) : string :=
  match s with
  | String _ (String _ s') => s'
  | _ => EmptyString
  end.

(** The characters before the first [c] and what follows it; [None] when
    [c] does not occur. *)
Fixpoint span_until (c : ascii) (s : string) : option (string * string) :=
  match s with
  | EmptyString => None
  | String a s' =>
      if Ascii.eqb a c then Some (EmptyString, s')
      else match span_until c s' with
           | Some (x, r) => Some (String a x, r)
           | None => None
           end
  end.

(** The expression [([^\]]+)\]\(([^)]+)\)] matched right after an opening
    bracket: both groups run to the first closing character and must not
    be empty. *)
Definition match_after_bracket (s : string) : option (string * string) :=
  match span_until "]" s with
  | Some (String a t, String "(" r) =>
      match span_until ")" r with
      | Some (String b u, _) => Some (String a t, String b u)
      | _ => None
      end
  | _ => None
  end.

(** [re.search(r"\[([^\]]+)\]\(([^)]+)\)", line).groups()]: the leftmost
    match. *)
Fixpoint re_search (line : string) : option (string * string) :=
  match line with
  | EmptyString => None
  | String a line' =>
      if Ascii.eqb a "[" then
        match match_after_bracket line' with
        | Some groups => Some groups
        | None => re_search line'
        end
      else re_search line'
  end.

(** [str.isspace] on ASCII. *)
Definition is_space (a : ascii) : bool :=
  let n := nat_of_ascii a in
  ((9 <=? n) && (n <=? 13) || (28 <=? n) && (n <=? 32))%nat.

Fixpoint lstrip (s : string) : string :=
  match s with
  | String a s' => if is_space a then lstrip s' else s
  | EmptyString => EmptyString
  end.

Fixpoint rstrip (s : string) : string :=
  match s with
  | EmptyString => EmptyString
  | String a s' =>
      match rstrip s' with
      | EmptyString => if is_space a then EmptyString else String a EmptyString
      | r => String a r
      end
  end.

(** [s.strip()] on ASCII text. *)
Definition strip (s : string) : string := rstrip (lstrip s).

(** [s.lower()] on ASCII text. *)
Definition lower (s : string) : string := UrlParse.lowers s.

Section Scan.

Variable py_strip : string -> string.
Variable py_lower : string -> string.

(** The name of the section opened by a header line (line 81). *)
Definition slug (line : string) : string :=
  replace " " "-" (py_lower (py_strip (from_2 line))).

(** One turn of the loop (lines 79-88) on the pair of [current_section]
    and [urls]. *)
Definition scan_line (st : string * list url_info) (raw : string)
  : string * list url_info :=
  let '(current_section, urls) := st in
  let line := py_strip raw in
  if startswith line "##" then (slug line, urls)
  else if startswith line "- [" && contains "](http" line then
    match re_search line with
    | Some (title, url) =>
        (current_section,
         urls ++ [{| title := title; url := url; section := current_section |}])
    | None => (current_section, urls)
    end
  else (current_section, urls).

(** Lines 75-91: the entries of the text, in order. *)
Definition parse (new_text : string) : list url_info :=
  (fold_left scan_line (PyStr.split "010" new_text) (EmptyString, [])).2.

End Scan.

End Manifest.

(** What the loop of the parser keeps true of an entry. *)
Definition entry_ok (u : url_info) : Prop :=
  title u <> "" /\ PyStr.has_char "]" (title u) = false
  /\ url u <> "" /\ PyStr.has_char ")" (url u) = false
  /\ PyStr.has_char " " (section u) = false.

(** A manifest of three entries under two headers, and a scraper's view of
    it. *)
Definition sample_manifest_text : string :=
  "# Anthropic" +:+ String "010"
  ("## Docs" +:+ String "010"
  ("- [Intro](https://docs.anthropic.com/en/docs/intro): start here" +:+ String "010"
  ("  ## API Reference  " +:+ String "010"
  ("- [Messages](https://docs.anthropic.com/en/api/messages.md)" +:+ String "010"
  ("- not a link" +:+ String "010"
  ("- [Home](https://docs.anthropic.com)" +:+ String "010" EmptyString)))))).

(** The manifest as the server answers it, and a server that cannot be
    reached. *)
Definition sample_manifest : exn + response :=
  inr {| status := 200; text := inr sample_manifest_text; read := inr sample_manifest_text |}.

Definition unreachable : exn + response := inl (Exception "ClientConnectorError").

(** What counts as an event of a download task: a permit, a request, a
    sleep, or the making of the directory and the opening of the file. *)
Definition task_event (ev : event) : bool :=
  match ev with
  | EvAcquire | EvGet _ | EvSleep _ | EvMkdir _ | EvOpen _ => true
  | _ => false
  end.

(** The events of a build outside its download tasks: the request for the
    manifest and the calls on the file system. *)
Definition setup_event (ev : event) : bool :=
  match ev with
  | EvManifestGet _ | EvOpen _ | EvBackup _ | EvRmtree _ | EvMkdir _ => true
  | _ => false
  end.

(** The events that destroy or archive the tree. *)
Definition rebuild_event (ev : event) : bool :=
  match ev with
  | EvBackup _ | EvRmtree _ => true
  | _ => false
  end.

(** The sleeps of a loop over [attempts], were every attempt to fail. *)
Definition backoff_total (max_retries : Z) (attempts : list nat) : Z :=
  fold_right (fun attempt acc =>
                (if Z.of_nat attempt <? max_retries then 2 ^ Z.of_nat attempt else 0) + acc)
             0 attempts.

(** The file name that [url_to_path] chooses (lines 109-114), on its own. *)
Definition filename_of (path_parts : list string) : string :=
  match path_parts with
  | _ :: _ =>
      let filename := List.last path_parts "" in
      if negb (PyStr.endswith filename ".md") then filename +:+ ".md" else filename
  | [] => "index.md"
  end.

(** * Properties *)

(** ** Strings and paths *)

(** The scenario of the design: the language prefix is dropped and a
    section other than ["docs"] becomes the first directory; with the
    section ["docs"] or none, no directory is added. *)
Example url_to_path_setup :
  Pathlib.str (url_to_path (Pathlib.Path "docs")
                 "https://docs.example.com/en/guides/setup" "guides")
  = "docs/guides/guides/setup.md"
  /\ Pathlib.str (url_to_path (Pathlib.Path "docs")
                    "https://docs.example.com/en/guides/setup" "docs")
     = "docs/guides/setup.md"
  /\ Pathlib.str (url_to_path (Pathlib.Path "docs")
                    "https://docs.example.com/en/guides/setup.md?plain=1" "")
     = "docs/guides/setup.md".
Proof. repeat split; vm_compute; reflexivity. Qed.

Lemma lstrip_no_segments s : no_segments s -> PyStr.lstrip "/" s = "".
Proof.
  unfold no_segments. induction s as [|a s IH]; simpl; [done|].
  destruct (Ascii.eqb a "/") eqn:Ha; simpl.
  - exact IH.
  - destruct (PyStr.split "/" s); simpl; discriminate.
Qed.

Lemma path_parts_no_segments s : no_segments s -> path_parts_of s = [""].
Proof.
  intros H. unfold path_parts_of, PyStr.strip.
  rewrite (lstrip_no_segments s H). reflexivity.
Qed.

Lemma name_truediv_md d : Pathlib.name (d </> ".md") = ".md".
Proof.
  unfold Pathlib.truediv, Pathlib.name. simpl. apply last_last.
Qed.

(** Whatever the base directory and the section, a URL whose path has no
    segments is mapped to a file called [.md]: the [else] branch of line 113
    is not taken, because [str.split] never returns an empty list. *)
Lemma url_to_path_no_segments base url section :
  no_segments (UrlParse.path url) ->
  Pathlib.name (url_to_path base url section) = ".md".
Proof.
  intros H. unfold url_to_path. rewrite (path_parts_no_segments _ H).
  cbn [List.last PyStr.endswith]. simpl (negb _). cbv iota.
  apply name_truediv_md.
Qed.

(** ** Freshness and the rebuild decision *)

Lemma is_file_recent_spec self fs now p :
  is_file_recent self fs now p = true <-> is_fresh_spec fs p now (cache_seconds self).
Proof.
  unfold is_file_recent, is_fresh_spec, FS.exists_, FS.st_mtime.
  destruct (FS.stat fs p) as [n|]; simpl.
  - rewrite Z.ltb_lt. split; [eauto|]. by intros (n' & [= <-] & ?).
  - split; [done|]. by intros (n' & ? & _).
Qed.

(** C7.  The claim is that a URL whose path has no segments is mapped to
    the default file name [index.md].  The code does not do so: for the
    path-less URL [https://docs.anthropic.com] and for
    [https://docs.anthropic.com/] the scraper built by [main] returns
    [docs/.md]; the default name is produced only when the language prefix
    was the single segment, as for [https://docs.anthropic.com/en]. *)
Theorem url_to_path_pathless_url :
  no_segments (UrlParse.path "https://docs.anthropic.com")
  /\ url_to_path (base_dir default_scraper) "https://docs.anthropic.com" ""
     = Pathlib.Path "docs/.md"
  /\ url_to_path (base_dir default_scraper) "https://docs.anthropic.com/" "docs"
     = Pathlib.Path "docs/.md"
  /\ url_to_path (base_dir default_scraper) "https://docs.anthropic.com" ""
     <> Pathlib.Path "docs/index.md"
  /\ url_to_path (base_dir default_scraper) "https://docs.anthropic.com/en" ""
     = Pathlib.Path "docs/index.md".
Proof. repeat split; try (vm_compute; reflexivity). vm_compute. discriminate. Qed.

(** C8.  Freshness is monotone backwards in time: for a file system in
    which the file keeps its modification time, a file that is fresh at
    time [t] is fresh at every earlier time [t']. *)
Theorem is_file_recent_monotone self fs (file_path : PurePath) (t t' : Z) :
  t' < t ->
  is_file_recent self fs t file_path = true ->
  is_file_recent self fs t' file_path = true.
Proof.
  unfold is_file_recent. intros Hlt.
  destruct (negb (FS.exists_ fs file_path)); [done|].
  cbv zeta. rewrite !Z.ltb_lt. lia.
Qed.

(** C6.  The rebuild decision of the code is the one the design states:
    it is true exactly when the output tree exists and the sentinel
    [llms.txt] is not fresh for the cache window; and it is false whenever
    the output tree does not exist, whatever the sentinel is. *)
Theorem should_do_full_rebuild_spec self fs now :
  (should_do_full_rebuild self fs now = true
   <-> should_rebuild_spec fs (base_dir self) llms_file now (cache_seconds self))
  /\ (FS.exists_ fs (base_dir self) = false -> should_do_full_rebuild self fs now = false).
Proof.
  unfold should_do_full_rebuild, should_rebuild_spec. split.
  - rewrite <- is_file_recent_spec.
    destruct (FS.exists_ fs (base_dir self)); simpl.
    + rewrite negb_true_iff, not_true_iff_false. tauto.
    + split; [done|]. by intros [? _].
  - by intros ->.
Qed.

(** ** The monad *)

Lemma bind_inr {A B} (m : M A) (f : A -> M B) w x w1 :
  m w = (inr x, w1) -> (m ≫= f) w = f x w1.
Proof. unfold mbind, M_bind. by intros ->. Qed.

Lemma bind_inl {A B} (m : M A) (f : A -> M B) w e w1 :
  m w = (inl e, w1) -> (m ≫= f) w = (inl e, w1).
Proof. unfold mbind, M_bind. by intros ->. Qed.

Lemma bind_inv_inr {A B} (m : M A) (f : A -> M B) w y w' :
  (m ≫= f) w = (inr y, w') ->
  exists x w1, m w = (inr x, w1) /\ f x w1 = (inr y, w').
Proof.
  unfold mbind, M_bind. destruct (m w) as [[e|x] w1]; [done|]. eauto.
Qed.

(** ** The retrying fetcher *)

(** C3.  A call with [force=False] on a fresh path returns ["cached"] and
    leaves the world as it was: the trace gets no request and no permit,
    and the file system, directories and contents, is the same. *)
Theorem download_file_cached self env url (file_path : PurePath) max_retries w :
  is_file_recent self (fs w) (now w) file_path = true ->
  download_file self env url file_path false max_retries w = (inr (PyStr "cached"), w).
Proof.
  intros H. unfold download_file, mbind, M_bind, time, get_fs. simpl.
  by rewrite H.
Qed.

(** An attempt whose response is not received completely raises what the
    request raised; it has sent the request and done nothing else. *)
Lemma attempt_body_no_response e url file_path w ex :
  receive e = inl ex ->
  attempt_body e url file_path w
  = (inl ex, MkWorld (fs w) (now w) (trace w ++ [EvGet (download_url_of url)])).
Proof.
  intros H. unfold attempt_body, mbind, M_bind, emit, lift. by rewrite H.
Qed.

(** The handler neither touches the file system nor sends anything. *)
Lemma on_exception_run attempt max_retries w :
  on_exception attempt max_retries w
  = if Z.of_nat attempt <? max_retries
    then (inr None, MkWorld (fs w) (now w + 2 ^ Z.of_nat attempt)
                            (trace w ++ [EvSleep (2 ^ Z.of_nat attempt)]))
    else (inr (Some (PyBool false)), w).
Proof. unfold on_exception. by destruct (_ <? _). Qed.

(** One iteration of the loop, by what the body of the [try] does. *)
Lemma for_attempt_cons env url file_path max_retries attempt attempts w :
  for_attempt env url file_path max_retries (attempt :: attempts) w
  = match attempt_body (env attempt) url file_path (emit EvAcquire w).2 with
    | (inr _, w1) => (inr (PyBool true), w1)
    | (inl e, w1) =>
        if is_Exception e then
          if Z.of_nat attempt <? max_retries
          then for_attempt env url file_path max_retries attempts
                 (sleep (2 ^ Z.of_nat attempt) w1).2
          else (inr (PyBool false), w1)
        else (inl e, w1)
    end.
Proof.
  cbn [for_attempt]. unfold mbind at 1 2, M_bind at 1 2.
  cbn [emit snd]. unfold try_except, mbind, M_bind.
  destruct (attempt_body _ _ _ _) as [[e|[]] w1]; [|done].
  destruct (is_Exception e); [|done].
  rewrite on_exception_run. by destruct (_ <? _).
Qed.

(** A loop in which no attempt receives a complete response leaves the file
    system alone and never returns [True]. *)
Lemma for_attempt_no_response env url file_path max_retries attempts :
  forall w r w',
  (forall a, a ∈ attempts -> exists ex, receive (env a) = inl ex) ->
  for_attempt env url file_path max_retries attempts w = (r, w') ->
  fs w' = fs w
  /\ (exists evs, trace w' = trace w ++ evs /\ Forall (fun ev => touches_fs ev = false) evs)
  /\ r <> inr (PyBool true).
Proof.
  induction attempts as [|a attempts IH]; intros w r w' Hall.
  - intros [= <- <-]. split; [done|]. split; [|done].
    exists []. by rewrite app_nil_r.
  - rewrite for_attempt_cons.
    destruct (Hall a) as [ex Hex]; [left|].
    rewrite (attempt_body_no_response _ _ _ _ _ Hex). cbn [emit snd fs now trace].
    assert (Hnil : Forall (fun ev => touches_fs ev = false)
                     [EvAcquire; EvGet (download_url_of url)]) by (by repeat constructor).
    destruct (is_Exception ex); [destruct (_ <? _)|].
    + intros Hrun. apply IH in Hrun as (Hfs & (evs & Htr & Hevs) & Hr).
      2:{ intros b Hb. apply Hall. by right. }
      cbn [sleep snd fs now trace] in *. split; [done|]. split; [|done].
      exists ([EvAcquire; EvGet (download_url_of url)]
              ++ [EvSleep (2 ^ Z.of_nat a)] ++ evs).
      split.
      * rewrite Htr. by rewrite <- !app_assoc.
      * apply Forall_app. split; [done|]. by constructor.
    + intros [= <- <-]. split; [done|]. split; [|done].
      exists [EvAcquire; EvGet (download_url_of url)].
      split; [|done]. by rewrite <- app_assoc.
    + intros [= <- <-]. split; [done|]. split; [|done].
      exists [EvAcquire; EvGet (download_url_of url)].
      split; [|done]. by rewrite <- app_assoc.
Qed.

Lemma elem_of_range a n : a ∈ range n -> Z.of_nat a < n.
Proof. unfold range. rewrite elem_of_seq. lia. Qed.

(** C4.  An attempt that fails before a complete response is received
    (the request raises, the status is not a success, or the body cannot be
    read) writes nothing: in a call of [download_file], the file system when
    attempt [a] is over is the one in which it started, and the attempt has
    only taken its permit and sent its request; the directory is made and
    the file opened after [receive] has returned the content.  Hence a call
    in which every attempt fails in this way leaves the file system as it
    was: it has made no directory and opened no file, it does not return
    [True], and a destination that did not exist still does not. *)
Theorem download_file_no_response_writes_nothing
    self env url (file_path : PurePath) force max_retries w (a : nat) ex :
  receive (env a) = inl ex ->
  (fs (attempt_run env url file_path w a).2 = fs (world_before env url file_path w a)
   /\ trace (attempt_run env url file_path w a).2
      = trace (world_before env url file_path w a)
        ++ [EvAcquire; EvGet (download_url_of url)])
  /\ ((forall b : nat, Z.of_nat b <= max_retries -> exists ex', receive (env b) = inl ex') ->
      forall r w',
      download_file self env url file_path force max_retries w = (r, w') ->
      fs w' = fs w
      /\ (exists evs,
            trace w' = trace w ++ evs /\ Forall (fun ev => touches_fs ev = false) evs)
      /\ r <> inr (PyBool true)
      /\ (FS.exists_ (fs w) file_path = false -> FS.exists_ (fs w') file_path = false)).
Proof.
  intros Ha. split.
  { unfold attempt_run. rewrite (attempt_body_no_response _ _ _ _ _ Ha).
    cbn [emit snd fs trace]. by rewrite <- app_assoc. }
  intros Hall r w'. unfold download_file, mbind, M_bind, time, get_fs. cbn [fst snd].
  destruct (negb force && is_file_recent self (fs w) (now w) file_path).
  - intros [= <- <-]. split; [done|]. split; [|done].
    exists []. by rewrite app_nil_r.
  - intros Hrun. apply for_attempt_no_response in Hrun as (Hfs & Htr & Hr).
    + rewrite Hfs. done.
    + intros b Hb%elem_of_range. apply Hall. lia.
Qed.

(** The hypothesis of the theorem above is about the response.  An attempt
    that fails later, while the file is being written, is another matter:
    [open] has created the file by then.  Here the disk fails after two
    bytes, at each of the two attempts. *)
Remark write_fault_leaves_file :
  let e := {| get := inr {| status := 200; text := inr "body"; read := inr "body" |};
              disk := WriteFault "bo" |} in
  let run := download_file default_scraper (fun _ => e)
               "https://docs.anthropic.com/en/intro" Sample.intro true 1
               (Sample.at_time 1800) in
  run.1 = inr (PyBool false)
  /\ fs run.2 !! Sample.intro = Some (File "bo" 1801).
Proof. split; vm_compute; reflexivity. Qed.

(** *** What an attempt adds to the trace *)

Lemma fs_call_run op w :
  exists r fs', fs_call op w = (r, MkWorld fs' (now w) (trace w)).
Proof.
  unfold fs_call, mbind, M_bind, time, get_fs, set_fs, raise. simpl.
  destruct (op _ _); [eauto|]. destruct w; eauto.
Qed.

Ltac run_fs_call :=
  match goal with
  | |- context [fs_call ?op ?w0] =>
      let r := fresh "r" in
      let fs' := fresh "fs'" in
      let E := fresh "E" in
      destruct (fs_call_run op w0) as (r & fs' & E); rewrite E; clear E;
      cbn [fs now trace fst snd]; try destruct r as [?|[]]
  end.

Lemma mkdir_parents_trace fault p w :
  trace (mkdir_parents fault p w).2 = trace w ++ [EvMkdir p].
Proof.
  unfold mkdir_parents, mbind, M_bind, emit. cbn [fst snd].
  destruct fault; try done; by run_fs_call.
Qed.

Lemma write_file_trace fault p content w :
  trace (write_file fault p content w).2 = trace w ++ [EvOpen p].
Proof.
  unfold write_file, mbind, M_bind, emit, raise. cbn [fst snd].
  destruct fault; try done; run_fs_call; try done; by run_fs_call.
Qed.

(** The body of the [try] sends exactly one request; whatever else it adds
    to the trace is a call on the file system. *)
Lemma attempt_body_trace e url file_path w :
  exists evs,
    trace (attempt_body e url file_path w).2
    = trace w ++ EvGet (download_url_of url) :: evs
    /\ Forall (fun ev => touches_fs ev = true) evs.
Proof.
  unfold attempt_body, mbind at 1 2, M_bind at 1 2, emit, lift. cbn [fst snd].
  destruct (receive e) as [ex|[content is_binary]].
  - exists []. done.
  - unfold mbind, M_bind.
    pose proof (mkdir_parents_trace (disk e) (Pathlib.parent file_path)
      (MkWorld (fs w) (now w) (trace w ++ [EvGet (download_url_of url)]))) as Hm.
    destruct (mkdir_parents _ _ _) as [[ex|[]] w1]; cbn [snd trace] in Hm |- *.
    + exists [EvMkdir (Pathlib.parent file_path)].
      split; [by rewrite Hm, <- app_assoc | by repeat constructor].
    + exists [EvMkdir (Pathlib.parent file_path); EvOpen file_path].
      split; [|by repeat constructor].
      destruct is_binary; rewrite write_file_trace, Hm; by rewrite <- !app_assoc.
Qed.

Lemma sleeps_of_fs evs :
  Forall (fun ev => touches_fs ev = true) evs -> sleeps_of evs = [].
Proof. induction 1 as [|[] ? ? ? IH]; by simplify_eq/=. Qed.

Lemma requests_of_fs evs :
  Forall (fun ev => touches_fs ev = true) evs -> requests_of evs = [].
Proof. induction 1 as [|[] ? ? ? IH]; by simplify_eq/=. Qed.

Lemma acquired_fs evs :
  Forall (fun ev => touches_fs ev = true) evs -> acquired evs = 0%nat.
Proof. induction 1 as [|[] ? ? ? IH]; by simplify_eq/=. Qed.

Lemma acquired_app tr1 tr2 : acquired (tr1 ++ tr2) = (acquired tr1 + acquired tr2)%nat.
Proof. unfold acquired. by rewrite List.filter_app, length_app. Qed.

(** *** The loop, attempt by attempt *)

Section Retry.

Variable env : nat -> attempt_env.
Variable url : string.
Variable file_path : PurePath.
Variable max_retries : Z.

Local Abbreviation before := (world_before env url file_path).
Local Abbreviation run_of := (attempt_run env url file_path).
Local Abbreviation download_url := (download_url_of url).

(** The delays of the exponential backoff after [n] failures. *)
Local Abbreviation backoff n := (map (fun attempt : nat => 2 ^ Z.of_nat attempt) (seq 0 n)).

Lemma attempt_run_trace w a :
  exists evs,
    trace (run_of w a).2
    = trace (before w a) ++ [EvAcquire; EvGet download_url] ++ evs
    /\ Forall (fun ev => touches_fs ev = true) evs.
Proof.
  unfold attempt_run.
  destruct (attempt_body_trace (env a) url file_path (emit EvAcquire (before w a)).2)
    as (evs & -> & Hevs).
  exists evs. split; [|done]. cbn [emit snd trace]. by rewrite <- app_assoc.
Qed.

Lemma world_before_S w a :
  before w (S a) = (sleep (2 ^ Z.of_nat a) (run_of w a).2).2.
Proof. reflexivity. Qed.

Lemma world_before_sleeps w a :
  sleeps_of (trace (before w a)) = sleeps_of (trace w) ++ backoff a.
Proof.
  induction a as [|a IH]; [by rewrite app_nil_r|].
  rewrite world_before_S. cbn [sleep snd trace].
  destruct (attempt_run_trace w a) as (evs & -> & Hevs).
  unfold sleeps_of in *. rewrite !omap_app, IH. cbn [omap].
  fold (sleeps_of evs). rewrite (sleeps_of_fs _ Hevs).
  rewrite seq_S, map_app. cbn [map]. by rewrite app_nil_r, <- app_assoc.
Qed.

Lemma world_before_requests w a :
  requests_of (trace (before w a))
  = requests_of (trace w) ++ replicate a download_url.
Proof.
  induction a as [|a IH]; [by rewrite app_nil_r|].
  rewrite world_before_S. cbn [sleep snd trace].
  destruct (attempt_run_trace w a) as (evs & -> & Hevs).
  unfold requests_of in *. rewrite !omap_app, IH. cbn [omap].
  fold (requests_of evs). rewrite (requests_of_fs _ Hevs).
  rewrite replicate_S_end. by rewrite !app_nil_r, <- app_assoc.
Qed.

Lemma world_before_acquired w a :
  acquired (trace (before w a)) = (acquired (trace w) + a)%nat.
Proof.
  induction a as [|a IH]; [by rewrite Nat.add_0_r|].
  rewrite world_before_S. cbn [sleep snd trace].
  destruct (attempt_run_trace w a) as (evs & -> & Hevs).
  rewrite !acquired_app, IH, (acquired_fs _ Hevs). cbn. lia.
Qed.

(** Iterations that fail while retries are left are passed one by one: the
    loop sleeps and goes on. *)
Lemma for_attempt_skip_failed w j : forall a rest,
  (forall i, (a <= i < a + j)%nat -> fails (run_of w i)) ->
  Z.of_nat (a + j) <= max_retries ->
  for_attempt env url file_path max_retries (seq a j ++ rest) (before w a)
  = for_attempt env url file_path max_retries rest (before w (a + j)).
Proof.
  induction j as [|j IH]; intros a rest Hfail Hle.
  - by rewrite Nat.add_0_r.
  - cbn [seq app]. rewrite for_attempt_cons.
    destruct (Hfail a) as (e & He & Hexc); [lia|].
    unfold attempt_run in *.
    destruct (attempt_body _ _ _ _) as [r w1] eqn:Hbody. cbn [fst] in He. subst r.
    rewrite Hexc.
    assert ((Z.of_nat a <? max_retries) = true) as -> by (apply Z.ltb_lt; lia).
    specialize (IH (S a) rest). rewrite world_before_S in IH.
    unfold attempt_run in IH. rewrite Hbody in IH. cbn [snd] in IH.
    rewrite IH.
    + by replace (S a + j)%nat with (a + S j)%nat by lia.
    + intros i Hi. apply Hfail. lia.
    + lia.
Qed.

(** The iteration that runs after [k] failures decides the call when it
    succeeds, or when it fails and was the last one. *)
Lemma for_attempt_from_zero w k rest :
  (forall i, (i < k)%nat -> fails (run_of w i)) ->
  Z.of_nat k <= max_retries ->
  for_attempt env url file_path max_retries (seq 0 k ++ k :: rest) w
  = match run_of w k with
    | (inr _, w1) => (inr (PyBool true), w1)
    | (inl e, w1) =>
        if is_Exception e then
          if Z.of_nat k <? max_retries
          then for_attempt env url file_path max_retries rest
                 (sleep (2 ^ Z.of_nat k) w1).2
          else (inr (PyBool false), w1)
        else (inl e, w1)
    end.
Proof.
  intros Hfail Hle.
  change w with (before w 0) at 1.
  rewrite for_attempt_skip_failed; [|intros; apply Hfail; lia|lia].
  cbn [Nat.add]. by rewrite for_attempt_cons.
Qed.

Lemma range_split (k : nat) :
  Z.of_nat k <= max_retries ->
  range (max_retries + 1)
  = seq 0 k ++ k :: seq (S k) (Z.to_nat max_retries - k).
Proof.
  intros Hk. unfold range.
  replace (Z.to_nat (max_retries + 1)) with (k + S (Z.to_nat max_retries - k))%nat by lia.
  by rewrite seq_app.
Qed.

(** The trace when iteration [k] is over: [k] sleeps, [k + 1] requests,
    each under a permit of its own. *)
Lemma attempt_run_sleeps w k :
  sleeps_of (trace (run_of w k).2) = sleeps_of (trace w) ++ backoff k.
Proof.
  destruct (attempt_run_trace w k) as (evs & -> & Hevs).
  unfold sleeps_of. rewrite !omap_app. fold (sleeps_of evs).
  rewrite (sleeps_of_fs _ Hevs). cbn [omap].
  fold (sleeps_of (trace (before w k))). by rewrite world_before_sleeps, !app_nil_r.
Qed.

Lemma attempt_run_requests w k :
  requests_of (trace (run_of w k).2)
  = requests_of (trace w) ++ replicate (S k) download_url.
Proof.
  destruct (attempt_run_trace w k) as (evs & -> & Hevs).
  unfold requests_of. rewrite !omap_app. fold (requests_of evs).
  rewrite (requests_of_fs _ Hevs). cbn [omap].
  fold (requests_of (trace (before w k))).
  by rewrite world_before_requests, replicate_S_end, !app_nil_r, <- app_assoc.
Qed.

Lemma attempt_run_acquired w k :
  acquired (trace (run_of w k).2) = (acquired (trace w) + S k)%nat.
Proof.
  destruct (attempt_run_trace w k) as (evs & -> & Hevs).
  rewrite !acquired_app, world_before_acquired, (acquired_fs _ Hevs). cbn. lia.
Qed.

End Retry.

(** C2.  For a call that gets past the cache check, with [max_retries] not
    negative.  When every attempt fails, the fetcher sleeps [2 ^ attempt]
    after each failed attempt with [attempt < max_retries] and goes on to
    the next one, and when the attempt numbered [max_retries] fails it
    returns [False] at once: the world it leaves is the one that attempt
    left, with [max_retries] sleeps of 1, 2, 4, ... and [max_retries + 1]
    requests, one permit each.  Conversely an attempt [k] that succeeds
    (after [k] failures) makes the call return [True] in the world that
    attempt left, after the sleeps 1, 2, ..., [2 ^ (k - 1)]. *)
Theorem download_file_retries self env url (file_path : PurePath) force max_retries w :
  0 <= max_retries ->
  negb force && is_file_recent self (fs w) (now w) file_path = false ->
  ((forall a : nat, Z.of_nat a <= max_retries -> fails (attempt_run env url file_path w a)) ->
   let w' := (attempt_run env url file_path w (Z.to_nat max_retries)).2 in
   download_file self env url file_path force max_retries w = (inr (PyBool false), w')
   /\ sleeps_of (trace w')
      = sleeps_of (trace w)
        ++ map (fun attempt : nat => 2 ^ Z.of_nat attempt) (seq 0 (Z.to_nat max_retries))
   /\ requests_of (trace w')
      = requests_of (trace w) ++ replicate (S (Z.to_nat max_retries)) (download_url_of url)
   /\ acquired (trace w') = (acquired (trace w) + S (Z.to_nat max_retries))%nat)
  /\
  (forall k : nat,
     Z.of_nat k <= max_retries ->
     (forall a : nat, (a < k)%nat -> fails (attempt_run env url file_path w a)) ->
     succeeds (attempt_run env url file_path w k) ->
     let w' := (attempt_run env url file_path w k).2 in
     download_file self env url file_path force max_retries w = (inr (PyBool true), w')
     /\ sleeps_of (trace w')
        = sleeps_of (trace w) ++ map (fun attempt : nat => 2 ^ Z.of_nat attempt) (seq 0 k)
     /\ requests_of (trace w')
        = requests_of (trace w) ++ replicate (S k) (download_url_of url)
     /\ acquired (trace w') = (acquired (trace w) + S k)%nat).
Proof.
  intros Hmax Hgate.
  assert (Hdl : download_file self env url file_path force max_retries w
                = for_attempt env url file_path max_retries (range (max_retries + 1)) w).
  { unfold download_file, mbind, M_bind, time, get_fs. cbn [fst snd]. by rewrite Hgate. }
  split.
  - intros Hfail w'. subst w'.
    split; [|by rewrite attempt_run_sleeps, attempt_run_requests, attempt_run_acquired].
    rewrite Hdl, (range_split max_retries (Z.to_nat max_retries)) by lia.
    rewrite for_attempt_from_zero; [|intros; apply Hfail; lia|lia].
    destruct (Hfail (Z.to_nat max_retries)) as (e & He & Hexc); [lia|].
    destruct (attempt_run _ _ _ _ _) as [r w1]. cbn [fst snd] in *. subst r.
    rewrite Hexc.
    by assert ((Z.of_nat (Z.to_nat max_retries) <? max_retries) = false) as ->
      by (apply Z.ltb_ge; lia).
  - intros k Hk Hfail Hok w'. subst w'.
    split; [|by rewrite attempt_run_sleeps, attempt_run_requests, attempt_run_acquired].
    rewrite Hdl, (range_split max_retries k) by lia.
    rewrite for_attempt_from_zero by done.
    unfold succeeds in Hok.
    destruct (attempt_run _ _ _ _ _) as [r w1]. cbn [fst snd] in *. by subst r.
Qed.

(** *** A forced call always sends a request *)

Lemma for_attempt_extends env url file_path max_retries attempts : forall w,
  exists evs,
    trace (for_attempt env url file_path max_retries attempts w).2 = trace w ++ evs.
Proof.
  induction attempts as [|a attempts IH]; intros w.
  - exists []. by rewrite app_nil_r.
  - rewrite for_attempt_cons.
    destruct (attempt_body_trace (env a) url file_path (emit EvAcquire w).2)
      as (evs & Ht & _).
    destruct (attempt_body _ _ _ _) as [[e|[]] w1]; cbn [emit snd trace] in Ht |- *.
    + destruct (is_Exception e); [destruct (_ <? _)|].
      * destruct (IH (sleep (2 ^ Z.of_nat a) w1).2) as (evs' & ->).
        cbn [sleep snd trace]. rewrite Ht. rewrite <- !app_assoc. eauto.
      * cbn [snd]. rewrite Ht, <- app_assoc. eauto.
      * cbn [snd]. rewrite Ht, <- app_assoc. eauto.
    + rewrite Ht, <- app_assoc. eauto.
Qed.


Lemma download_file_extends self env url file_path force max_retries w :
  exists evs,
    trace (download_file self env url file_path force max_retries w).2 = trace w ++ evs.
Proof.
  unfold download_file, mbind, M_bind, time, get_fs. cbn [fst snd].
  destruct (negb force && _).
  - exists []. by rewrite app_nil_r.
  - apply for_attempt_extends.
Qed.




(** ** The file system under the calls of a build *)

Lemma exists_iff (m : gmap PurePath node) q :
  FS.exists_ m q = true <-> parts q = [] \/ is_Some (m !! q).
Proof.
  unfold FS.exists_, FS.stat. destruct (parts q) eqn:Hq.
  - split; [by left|done].
  - destruct (m !! q); split; try done; eauto.
    + intros [?|[? ?]]; done.
Qed.

Lemma exists_insert (m : gmap PurePath node) p n q :
  FS.exists_ m q = true -> FS.exists_ (<[p:=n]> m) q = true.
Proof.
  rewrite !exists_iff, lookup_insert_is_Some'. tauto.
Qed.

Lemma exists_touch_parent t p (m : gmap PurePath node) q :
  FS.exists_ m q = true -> FS.exists_ (FS.touch_parent t p m) q = true.
Proof.
  unfold FS.touch_parent. by rewrite !exists_iff, lookup_alter_is_Some.
Qed.

Lemma open_w_exists t p (m m1 : gmap PurePath node) q :
  FS.open_w t p m = Some m1 -> FS.exists_ m q = true -> FS.exists_ m1 q = true.
Proof.
  unfold FS.open_w. intros H Hq.
  destruct (FS.stat m p) as [[]|], (FS.stat m (Pathlib.parent p)) as [[]|];
    simplify_eq; auto using exists_insert, exists_touch_parent.
Qed.

(** After [rmtree] nothing is left of the tree. *)
Lemma rmtree_lookup t p (m m1 : gmap PurePath node) q :
  FS.rmtree t p m = Some m1 -> FS.within p q = true -> m1 !! q = None.
Proof.
  unfold FS.rmtree. destruct (FS.stat m p) as [[]|]; intros; simplify_eq.
  unfold FS.touch_parent. apply lookup_alter_None, map_lookup_filter_None_2.
  right. intros x _. cbn. congruence.
Qed.

(** [mkdir] makes nothing but the directory asked for. *)
Lemma mkdir_lookup t p (m m1 : gmap PurePath node) q :
  FS.mkdir t p m = Some m1 -> q <> p -> m !! q = None -> m1 !! q = None.
Proof.
  unfold FS.mkdir. intros H Hne Hq.
  destruct (FS.stat m p) as [[]|]; simplify_eq; [done|].
  destruct (FS.stat m (Pathlib.parent p)) as [[]|]; simplify_eq.
  rewrite lookup_insert_ne by done. unfold FS.touch_parent.
  by apply lookup_alter_None.
Qed.

(** Writing a file, without a fault of the disk: the call on [open] is
    recorded, the clock does not move and nothing that existed is lost. *)
Lemma write_file_run p content w :
  exists r m1,
    write_file NoFault p content w = (r, MkWorld m1 (now w) (trace w ++ [EvOpen p]))
    /\ (forall q, FS.exists_ (fs w) q = true -> FS.exists_ m1 q = true)
    /\ (FS.open_w (now w) p (fs w) <> None -> r = inr tt).
Proof.
  unfold write_file, fs_call, emit, time, get_fs, set_fs, raise.
  unfold mbind, M_bind. cbn [fst snd fs now trace].
  destruct (FS.open_w (now w) p (fs w)) as [m1|] eqn:Hopen; cbn [fst snd fs now trace].
  - eexists _, _. split; [done|]. split; [|done].
    intros q Hq. unfold FS.set_content. eauto using exists_insert, open_w_exists.
  - eexists _, _. split; [done|]. split; [auto|done].
Qed.

(** ** The batch orchestrator *)

(** The three counters split the results: what is neither [True] nor
    ["cached"] ([False], or an exception collected by [gather]) is a failure. *)
Lemma count_results_sum results :
  let c := count_results results in
  success_count c + cached_count c + fail_count c = len results
  /\ fail_count c
     = sum_1_for (fun result => negb (is_True result) && negb (eq_cached result)) results
  /\ 0 <= success_count c /\ 0 <= cached_count c /\ 0 <= fail_count c.
Proof.
  cbn. split; [lia|].
  assert (H : len results - sum_1_for is_True results - sum_1_for eq_cached results
              = sum_1_for (fun result => negb (is_True result) && negb (eq_cached result))
                  results
              /\ 0 <= sum_1_for is_True results /\ 0 <= sum_1_for eq_cached results
              /\ 0 <= sum_1_for (fun result => negb (is_True result) && negb (eq_cached result))
                       results).
  { unfold len. induction results as [|result results IH]; [done|].
    cbn [sum_1_for fold_right length]. fold (sum_1_for is_True results).
    fold (sum_1_for eq_cached results).
    fold (sum_1_for (fun result => negb (is_True result) && negb (eq_cached result)) results).
    destruct result as [[]|s|e]; cbn [is_True eq_cached negb andb];
      try destruct (String.eqb s "cached"); cbn [negb andb]; lia. }
  destruct H as (-> & ? & ? & ?). done.
Qed.

Lemma gather_length self net tasks : forall i w,
  length (gather self net i tasks w).1 = length tasks.
Proof.
  induction tasks as [|task tasks IH]; intros i w; [done|].
  cbn [gather]. destruct (run_coroutine _ _ _ _) as [r w1].
  specialize (IH (S i) w1). destruct (gather _ _ _ _ _) as [results w2].
  cbn in *. by rewrite IH.
Qed.

Ltac step_bind H := unfold mbind at 1, M_bind at 1 in H.

Ltac step_bind_goal := unfold mbind at 1, M_bind at 1.

Ltac inv_bind H :=
  repeat (let x := fresh "x" in
          let w := fresh "w" in
          let E := fresh "E" in
          apply bind_inv_inr in H as (x & w & E & H); cbv beta in H).

Section Orchestrator.

Variable self : scraper.
Variable parse_manifest : string -> list url_info.
Variable strftime : Z -> string.
Variable targz : PurePath -> filesystem -> string.

Local Abbreviation fetch := (fetch_llms_txt self parse_manifest).
Local Abbreviation init_build := (init_build_async self parse_manifest strftime targz).
Local Abbreviation update_build := (update_build_async self parse_manifest).
Local Abbreviation build := (run_build self parse_manifest strftime targz).
Local Abbreviation path_of url_info :=
  (url_to_path (base_dir self) (url url_info) (section url_info)).

(** The entries of a run are those parsed from the text that was received. *)
Lemma fetch_llms_txt_inv manifest w urls w1 :
  fetch manifest w = (inr urls, w1) ->
  exists new_text,
    receive_manifest manifest = inr new_text /\ urls = parse_manifest new_text.
Proof.
  unfold fetch_llms_txt. intros H. inv_bind H.
  unfold lift in E0. injection E0 as E0 _. injection H as <- _. eauto.
Qed.

Lemma time_run w : time w = (inr (now w), w).
Proof. reflexivity. Qed.

Lemma get_fs_run w : get_fs w = (inr (fs w), w).
Proof. reflexivity. Qed.

(** A run of [init_build_async] that returns has fetched the manifest and
    gathered one task per entry, each forced. *)
Lemma init_build_async_inv manifest net w c w' :
  init_build manifest net w = (inr c, w') ->
  exists urls w1 w2 results,
    fetch manifest w = (inr urls, w1)
    /\ gather self net 0 (init_tasks self urls) w2 = (results, w')
    /\ c = count_results results.
Proof.
  unfold init_build_async. intros H.
  apply bind_inv_inr in H as (t & w0 & [= <- <-] & H).
  apply bind_inv_inr in H as (fs0 & w0 & [= <- <-] & H). cbv zeta in H.
  apply bind_inv_inr in H as (urls & w1 & Hfetch & H).
  apply bind_inv_inr in H as (? & w2 & _ & H).
  apply bind_inv_inr in H as (? & w3 & _ & H).
  apply bind_inv_inr in H as (? & w4 & _ & H). cbv zeta in H.
  apply bind_inv_inr in H as (results & w5 & Hg & H).
  unfold await_gather in Hg.
  destruct (gather _ _ _ _ _) as [results' w6] eqn:Hg'.
  injection Hg as <- <-. injection H as <- <-. by exists urls, w1, w4, results'.
Qed.

(** A run of [update_build_async]: without the output directory it
    returns at once; otherwise it fetches the manifest, makes the tasks
    from the file system as it is then, and gathers them. *)
Lemma update_build_async_run manifest net w :
  update_build manifest net w
  = if negb (FS.exists_ (fs w) (base_dir self)) then (inr None, w)
    else match fetch manifest w with
         | (inl e, w1) => (inl e, w1)
         | (inr urls, w1) =>
             let '(results, w') := gather self net 0 (update_tasks self (fs w1) urls) w1 in
             (inr (Some (count_results results)), w')
         end.
Proof.
  unfold update_build_async. unfold mbind at 1, M_bind at 1. rewrite get_fs_run.
  destruct (negb _); [done|].
  unfold mbind at 1, M_bind at 1.
  destruct (fetch_llms_txt _ _ _ _) as [[e|urls] w1]; [done|].
  unfold mbind at 1, M_bind at 1. rewrite get_fs_run.
  destruct (update_tasks self (fs w1) urls) as [|task tasks] eqn:Htasks; [done|].
  unfold mbind, M_bind, await_gather.
  by destruct (gather _ _ _ _ _).
Qed.

Lemma length_init_tasks urls : length (init_tasks self urls) = length urls.
Proof. unfold init_tasks. by rewrite length_map. Qed.

Lemma length_update_tasks fs0 urls : length (update_tasks self fs0 urls) = length urls.
Proof. unfold update_tasks. by rewrite length_map. Qed.

(** C1.  In both modes, a batch run that reports its counters has fetched
    the manifest, gathered one result per entry (a value returned by the
    task, or the exception that left it), and the three counters add up to
    the number of entries; none is negative, and the failures are the
    results that are neither [True] nor ["cached"]. *)
Theorem run_build_counts_sum a manifest net w c w' :
  build a manifest net w = (inr (Some c), w') ->
  exists new_text w1 results,
    receive_manifest manifest = inr new_text
    /\ gather self net 0
         match a with
         | ArgInit => init_tasks self (parse_manifest new_text)
         | ArgUpdate => update_tasks self (fs w1) (parse_manifest new_text)
         end w1 = (results, w')
    /\ len results = len (parse_manifest new_text)
    /\ c = count_results results
    /\ success_count c + cached_count c + fail_count c = len (parse_manifest new_text)
    /\ fail_count c
       = sum_1_for (fun result => negb (is_True result) && negb (eq_cached result)) results
    /\ 0 <= success_count c /\ 0 <= cached_count c /\ 0 <= fail_count c.
Proof.
  intros H.
  assert (exists new_text w1 results,
            receive_manifest manifest = inr new_text
            /\ gather self net 0
                 match a with
                 | ArgInit => init_tasks self (parse_manifest new_text)
                 | ArgUpdate => update_tasks self (fs w1) (parse_manifest new_text)
                 end w1 = (results, w')
            /\ c = count_results results) as (new_text & w1 & results & Hm & Hg & ->).
  { destruct a; unfold run_build in H.
    - apply bind_inv_inr in H as (c' & w2 & H & [= <- <-]).
      apply init_build_async_inv in H as (urls & w1 & w3 & results & Hf & Hg & ->).
      apply fetch_llms_txt_inv in Hf as (new_text & Hm & ->).
      by exists new_text, w3, results.
    - rewrite update_build_async_run in H.
      destruct (negb _); [done|].
      destruct (fetch_llms_txt _ _ _ _) as [[e|urls] w1] eqn:Hf; [done|].
      apply fetch_llms_txt_inv in Hf as (new_text & Hm & ->).
      destruct (gather _ _ _ _ _) as [results w2] eqn:Hg.
      injection H as <- <-. by exists new_text, w1, results. }
  exists new_text, w1, results.
  assert (Hlen : len results = len (parse_manifest new_text)).
  { unfold len. f_equal.
    pose proof (gather_length self net
      match a with
      | ArgInit => init_tasks self (parse_manifest new_text)
      | ArgUpdate => update_tasks self (fs w1) (parse_manifest new_text)
      end 0%nat w1) as Hl.
    rewrite Hg in Hl. cbn [fst] in Hl. rewrite Hl.
    destruct a; [apply length_init_tasks|apply length_update_tasks]. }
  pose proof (count_results_sum results) as Hc. cbv zeta in Hc.
  rewrite Hlen in Hc. tauto.
Qed.


(** *** The first build over an existing tree *)

Lemma fetch_llms_txt_fresh manifest new_text w :
  receive_manifest manifest = inr new_text ->
  FS.exists_ (fs w) llms_file = false ->
  exists m1,
    fetch manifest w
    = (inr (parse_manifest new_text),
       MkWorld m1 (now w) (trace w ++ [EvManifestGet (llms_url self); EvOpen llms_file]))
    /\ (forall q, FS.exists_ (fs w) q = true -> FS.exists_ m1 q = true).
Proof.
  intros Hm Hex.
  destruct (write_file_run llms_file new_text
              (MkWorld (fs w) (now w) (trace w ++ [EvManifestGet (llms_url self)])))
    as (r & m1 & E & Hmono & Hok).
  cbn [fs now trace] in *.
  assert (r = inr tt) as ->.
  { apply Hok. unfold FS.open_w. unfold FS.exists_ in Hex.
    destruct (FS.stat (fs w) llms_file); [done|]. done. }
  exists m1. split; [|done].
  unfold fetch_llms_txt, emit, lift, get_fs. unfold mbind, M_bind.
  cbn [fst snd fs now trace]. rewrite Hm, Hex, E. by rewrite <- app_assoc.
Qed.

Lemma rmtree_run p w :
  exists r m1,
    rmtree p w = (r, MkWorld m1 (now w) (trace w ++ [EvRmtree p]))
    /\ (r = inr tt -> forall q, FS.within p q = true -> m1 !! q = None).
Proof.
  unfold rmtree, fs_call, emit, time, get_fs, set_fs, raise. unfold mbind, M_bind.
  cbn [fst snd fs now trace].
  destruct (FS.rmtree (now w) p (fs w)) as [m1|] eqn:Hrm.
  - eexists _, _. split; [done|]. intros _ q Hq. by eapply rmtree_lookup.
  - eexists _, _. split; [done|]. done.
Qed.


(** A file is left alone by what the calls of a build do next to it. *)
Lemma touch_parent_keeps_file t p (m : gmap PurePath node) q content mtime :
  m !! q = Some (File content mtime) ->
  FS.touch_parent t p m !! q = Some (File content mtime).
Proof.
  intros Hq. unfold FS.touch_parent.
  destruct (decide (Pathlib.parent p = q)) as [->|Hne].
  - by rewrite lookup_alter_eq, Hq.
  - by rewrite lookup_alter_ne.
Qed.

Lemma rmtree_keeps_file t p (m m1 : gmap PurePath node) q content mtime :
  FS.rmtree t p m = Some m1 -> FS.within p q = false ->
  m !! q = Some (File content mtime) -> m1 !! q = Some (File content mtime).
Proof.
  unfold FS.rmtree. destruct (FS.stat m p) as [[]|]; intros; simplify_eq.
  apply touch_parent_keeps_file. by apply map_lookup_filter_Some_2.
Qed.

Lemma mkdir_keeps_file t p (m m1 : gmap PurePath node) q content mtime :
  FS.mkdir t p m = Some m1 ->
  m !! q = Some (File content mtime) -> m1 !! q = Some (File content mtime).
Proof.
  unfold FS.mkdir, FS.stat. intros H Hq.
  destruct (parts p) eqn:Hp; [by simplify_eq|].
  destruct (m !! p) as [[]|] eqn:Hmp; simplify_eq; [done|].
  destruct (match parts (Pathlib.parent p) with [] => _ | _ => _ end) as [[]|];
    simplify_eq.
  rewrite lookup_insert_ne by congruence. by apply touch_parent_keeps_file.
Qed.

(** The calls on the file system, by what the file system answers. *)
Lemma write_file_nofault p content w :
  write_file NoFault p content w
  = match FS.open_w (now w) p (fs w) with
    | Some m1 => (inr tt, MkWorld (FS.set_content (now w) p content m1) (now w)
                            (trace w ++ [EvOpen p]))
    | None => (inl (Exception "OSError"), MkWorld (fs w) (now w) (trace w ++ [EvOpen p]))
    end.
Proof.
  unfold write_file, fs_call, emit, time, get_fs, set_fs, raise.
  unfold mbind, M_bind. cbn [fst snd fs now trace].
  by destruct (FS.open_w (now w) p (fs w)).
Qed.

Lemma rmtree_cases p w :
  rmtree p w
  = match FS.rmtree (now w) p (fs w) with
    | Some m1 => (inr tt, MkWorld m1 (now w) (trace w ++ [EvRmtree p]))
    | None => (inl (Exception "OSError"), MkWorld (fs w) (now w) (trace w ++ [EvRmtree p]))
    end.
Proof.
  unfold rmtree, fs_call, emit, time, get_fs, set_fs, raise. unfold mbind, M_bind.
  cbn [fst snd fs now trace]. by destruct (FS.rmtree (now w) p (fs w)).
Qed.

Lemma mkdir_cases p w :
  fs_call (fun t => FS.mkdir t p) w
  = match FS.mkdir (now w) p (fs w) with
    | Some m1 => (inr tt, MkWorld m1 (now w) (trace w))
    | None => (inl (Exception "OSError"), w)
    end.
Proof.
  unfold fs_call, time, get_fs, set_fs, raise. unfold mbind, M_bind.
  cbn [fst snd fs now trace]. destruct (FS.mkdir (now w) p (fs w)); [done|by destruct w].
Qed.

(** The fetch that finds no local copy writes it and leaves every other
    path as it was. *)
Lemma fetch_llms_txt_fresh_fs manifest new_text w :
  receive_manifest manifest = inr new_text ->
  FS.exists_ (fs w) llms_file = false ->
  exists m1,
    fetch manifest w
    = (inr (parse_manifest new_text),
       MkWorld m1 (now w) (trace w ++ [EvManifestGet (llms_url self); EvOpen llms_file]))
    /\ (forall q, FS.exists_ (fs w) q = true -> FS.exists_ m1 q = true)
    /\ (forall q, q <> llms_file -> parts q <> [] -> m1 !! q = fs w !! q).
Proof.
  intros Hm Hex.
  destruct (fetch_llms_txt_fresh manifest new_text w Hm Hex) as (m1 & Hf & Hmono).
  exists m1. split; [done|]. split; [done|].
  revert Hf. unfold fetch_llms_txt, emit, lift, get_fs. unfold mbind, M_bind.
  cbn [fst snd fs now trace]. rewrite Hm, Hex. cbn [fst snd fs now trace].
  rewrite write_file_nofault. cbn [fs now trace].
  unfold FS.open_w. unfold FS.exists_ in Hex.
  destruct (FS.stat (fs w) llms_file); [done|].
  change (FS.stat (fs w) (Pathlib.parent llms_file)) with (Some (Dir 0)).
  intros [= <-] q Hq Hparts. unfold FS.set_content, FS.touch_parent.
  rewrite !lookup_insert_ne by done.
  apply lookup_alter_ne. intros <-. by apply Hparts.
Qed.

(** The backup over an existing output directory: either the archive could
    not be opened and the file system is as it was, or the file of the
    backup holds the archive of the file system at the start of the call. *)
Lemma backup_docs_folder_written w :
  FS.exists_ (fs w) (base_dir self) = true ->
  let backup_name := "docs_backup_" +:+ strftime (now w) +:+ ".tar.gz" in
  exists r m1,
    backup_docs_folder self strftime targz w
    = (r, MkWorld m1 (now w)
            (trace w ++ [EvBackup backup_name; EvOpen (Pathlib.Path backup_name)]))
    /\ (forall q, FS.exists_ (fs w) q = true -> FS.exists_ m1 q = true)
    /\ match r with
       | inl _ => m1 = fs w
       | inr name =>
           name = Some backup_name
           /\ m1 !! Pathlib.Path backup_name
              = Some (File (targz (base_dir self) (fs w)) (now w))
       end.
Proof.
  intros Hex backup_name.
  unfold backup_docs_folder, emit, time, get_fs. unfold mbind, M_bind.
  cbn [fst snd fs now trace]. rewrite Hex. cbn [negb]. fold backup_name.
  rewrite write_file_nofault. cbn [fs now trace].
  destruct (FS.open_w (now w) (Pathlib.Path backup_name) (fs w)) as [m1|] eqn:Hop.
  - eexists _, _. rewrite <- app_assoc. split; [reflexivity|]. split.
    + intros q Hq. unfold FS.set_content. eauto using exists_insert, open_w_exists.
    + split; [done|]. unfold FS.set_content. apply lookup_insert_eq.
  - eexists _, _. rewrite <- app_assoc. split; [reflexivity|]. done.
Qed.

(** C10.  When the output directory exists and there is no local
    [llms.txt], the rebuild decision is true.  Then, in an initial build
    whose manifest is received, the fetch writes [llms.txt] and leaves every
    other path as it was, and the trace after the manifest continues with
    the backup, taken of the file system that the fetch leaves.  Either the
    archive cannot be written, and the build stops there with nothing
    removed; or the file of the backup holds the archive of that file
    system, and only then is the tree removed.  In that case either the
    build stops on an exception before any task is started (no permit
    taken, no document requested), or the directory is made again before
    the tasks run: their file system is the one that the removal and the
    making of the directory leave of the one with the archive, it holds
    nothing below the output directory, and it still holds the archive when
    the archive does not lie in the tree removed. *)
Theorem init_build_without_sentinel manifest net w new_text r w' :
  FS.exists_ (fs w) (base_dir self) = true ->
  FS.exists_ (fs w) llms_file = false ->
  should_do_full_rebuild self (fs w) (now w) = true
  /\ (receive_manifest manifest = inr new_text ->
      init_build manifest net w = (r, w') ->
      let w1 := (fetch manifest w).2 in
      let backup_name := "docs_backup_" +:+ strftime (now w) +:+ ".tar.gz" in
      let archive := File (targz (base_dir self) (fs w1)) (now w) in
      let before :=
        [EvManifestGet (llms_url self); EvOpen llms_file;
         EvBackup backup_name; EvOpen (Pathlib.Path backup_name)] in
      (forall q, q <> llms_file -> parts q <> [] -> fs w1 !! q = fs w !! q)
      /\ ((exists e,
              r = inl e /\ trace w' = trace w ++ before /\ fs w' = fs w1)
          \/ (exists wb,
                backup_docs_folder self strftime targz w1 = (inr (Some backup_name), wb)
                /\ fs wb !! Pathlib.Path backup_name = Some archive
                /\ ((exists e tail,
                        r = inl e
                        /\ trace w' = trace w ++ before ++ EvRmtree (base_dir self) :: tail
                        /\ requests_of tail = [] /\ acquired tail = 0%nat)
                    \/ (exists m3 w2 results,
                          FS.rmtree (now w) (base_dir self) (fs wb) = Some m3
                          /\ FS.mkdir (now w) (base_dir self) m3 = Some (fs w2)
                          /\ trace w2
                             = trace w ++ before
                               ++ [EvRmtree (base_dir self); EvMkdir (base_dir self)]
                          /\ (forall q, FS.within (base_dir self) q = true ->
                                        q <> base_dir self -> fs w2 !! q = None)
                          /\ (FS.within (base_dir self) (Pathlib.Path backup_name) = false ->
                              fs w2 !! Pathlib.Path backup_name = Some archive)
                          /\ gather self net 0 (init_tasks self (parse_manifest new_text)) w2
                             = (results, w')
                          /\ r = inr (count_results results)))))).
Proof.
  intros Hbase Hsent.
  assert (Hreb : should_do_full_rebuild self (fs w) (now w) = true).
  { unfold should_do_full_rebuild, is_file_recent. by rewrite Hbase, Hsent. }
  split; [done|]. intros Hm Hrun w1 backup_name archive before.
  destruct (fetch_llms_txt_fresh_fs manifest new_text w Hm Hsent)
    as (m1 & Hf & Hmono1 & Hsame).
  assert (Hw1 : w1 = MkWorld m1 (now w)
                       (trace w ++ [EvManifestGet (llms_url self); EvOpen llms_file]))
    by (unfold w1; by rewrite Hf).
  split; [intros q ? ?; rewrite Hw1; by apply Hsame|].
  unfold init_build_async in Hrun.
  do 3 step_bind Hrun.
  rewrite time_run, get_fs_run, Hreb, Hf in Hrun.
  do 2 step_bind Hrun. rewrite <- Hw1 in Hrun.
  destruct (backup_docs_folder_written w1) as (rb & m2 & Eb & Hmono2 & Hrb).
  { rewrite Hw1. by apply Hmono1. }
  assert (Hnow1 : now w1 = now w) by by rewrite Hw1.
  assert (Htr1 : trace w1 = trace w ++ [EvManifestGet (llms_url self); EvOpen llms_file])
    by by rewrite Hw1.
  rewrite Hnow1, Htr1 in Eb. rewrite Hnow1 in Hrb. fold backup_name in Eb, Hrb.
  rewrite Eb in Hrun.
  destruct rb as [e|name].
  { injection Hrun as <- <-. left. exists e. cbn [trace fs]. subst m2.
    by rewrite <- app_assoc. }
  destruct Hrb as [-> Harch]. right. eexists. split; [exact Eb|].
  split; [exact Harch|]. clear Eb.
  step_bind Hrun. rewrite get_fs_run in Hrun.
  cbn [fs] in Hrun. rewrite (Hmono2 (base_dir self)) in Hrun
    by (rewrite Hw1; by apply Hmono1).
  rewrite rmtree_cases in Hrun. cbn [fs now trace] in Hrun |- *.
  destruct (FS.rmtree (now w) (base_dir self) m2) as [m3|] eqn:Hrm.
  2:{ injection Hrun as <- <-. left. exists (Exception "OSError"), []. cbn [trace].
      by rewrite <- !app_assoc. }
  step_bind Hrun. unfold emit at 1 in Hrun. cbn [fs now trace] in Hrun.
  step_bind Hrun. rewrite mkdir_cases in Hrun. cbn [fs now trace] in Hrun.
  destruct (FS.mkdir (now w) (base_dir self) m3) as [m4|] eqn:Hmk.
  2:{ injection Hrun as <- <-. left.
      exists (Exception "OSError"), [EvMkdir (base_dir self)]. cbn [trace].
      by rewrite <- !app_assoc. }
  unfold mbind, M_bind, await_gather in Hrun.
  destruct (gather _ _ _ _ _) as [results w3] eqn:Hg.
  injection Hrun as <- <-. right.
  match type of Hg with gather _ _ _ _ ?w0 = _ => exists m3, w0, results end.
  split; [done|]. cbn [fs trace].
  split; [exact Hmk|]. split; [by rewrite <- !app_assoc|].
  split; [|split; [|split; [exact Hg|done]]].
  - intros q Hq Hne. eapply mkdir_lookup; [exact Hmk|done|].
    by eapply rmtree_lookup.
  - intros Hout. eapply mkdir_keeps_file; [exact Hmk|].
    by eapply rmtree_keeps_file.
Qed.

End Orchestrator.

(** * The theorems at work on the sample world *)

(** An attempt that receives no complete response, and raises an
    [Exception], fails in the sense of the retry loop. *)
Lemma attempt_run_no_response env url file_path w a ex :
  receive (env a) = inl ex -> is_Exception ex = true ->
  fails (attempt_run env url file_path w a).
Proof.
  intros H Hex. unfold fails, attempt_run.
  rewrite (attempt_body_no_response _ _ _ _ _ H). eauto.
Qed.

(** C8 on the sample tree: the page written at time 0 is fresh half an hour
    later, hence also after 100 seconds. *)
Lemma is_file_recent_monotone_witness :
  is_file_recent default_scraper Sample.tree 100 Sample.setup = true.
Proof.
  apply (is_file_recent_monotone default_scraper Sample.tree Sample.setup 1800 100).
  - lia.
  - vm_compute. reflexivity.
Defined.

(** C3 on the scenario of the design: the target was written 30 minutes
    ago and the cache window is one hour. *)
Lemma download_file_cached_witness :
  download_file default_scraper Sample.third_time
    "https://docs.anthropic.com/en/guides/setup" Sample.setup false 3 (Sample.at_time 1800)
  = (inr (PyStr "cached"), Sample.at_time 1800).
Proof.
  apply (download_file_cached default_scraper Sample.third_time
           "https://docs.anthropic.com/en/guides/setup" Sample.setup 3 (Sample.at_time 1800)).
  vm_compute. reflexivity.
Defined.

(** C4 on a page that does not exist, requested four times from a server
    that refuses the connection. *)
Lemma download_file_no_response_witness :
  FS.exists_ Sample.tree Sample.intro = false
  /\ FS.exists_
       (fs (download_file default_scraper (fun _ => Sample.refuses)
              "https://docs.anthropic.com/en/intro" Sample.intro true 3
              (Sample.at_time 1800)).2)
       Sample.intro = false.
Proof.
  split; [vm_compute; reflexivity|].
  destruct (download_file_no_response_writes_nothing default_scraper
              (fun _ => Sample.refuses) "https://docs.anthropic.com/en/intro"
              Sample.intro true 3 (Sample.at_time 1800) 0%nat
              (Exception "ClientConnectorError")) as [_ Hcall]; [reflexivity|].
  refine (proj2 (proj2 (proj2 (Hcall _ _ _ _))) _).
  - intros b _. exists (Exception "ClientConnectorError"). reflexivity.
  - apply surjective_pairing.
  - vm_compute. reflexivity.
Defined.

(** C2 on the same page: four refusals give [False] after sleeps of 1, 2
    and 4; two refusals and an answer give [True] after sleeps of 1 and 2. *)
Lemma download_file_retries_witness :
  (download_file default_scraper (fun _ => Sample.refuses)
     "https://docs.anthropic.com/en/intro" Sample.intro true 3 (Sample.at_time 1800)).1
  = inr (PyBool false)
  /\ (download_file default_scraper Sample.third_time
        "https://docs.anthropic.com/en/intro" Sample.intro true 3 (Sample.at_time 1800)).1
     = inr (PyBool true).
Proof.
  split.
  - destruct (download_file_retries default_scraper (fun _ => Sample.refuses)
                "https://docs.anthropic.com/en/intro" Sample.intro true 3
                (Sample.at_time 1800)) as [Hall _]; [lia|reflexivity|].
    destruct Hall as [-> _]; [|reflexivity].
    intros a _. by apply (attempt_run_no_response _ _ _ _ _ (Exception "ClientConnectorError")).
  - destruct (download_file_retries default_scraper Sample.third_time
                "https://docs.anthropic.com/en/intro" Sample.intro true 3
                (Sample.at_time 1800)) as [_ Hsome]; [lia|reflexivity|].
    destruct (Hsome 2%nat) as [-> _]; [lia| |vm_compute; reflexivity|reflexivity].
    intros a Ha.
    apply (attempt_run_no_response _ _ _ _ _ (Exception "ClientConnectorError")); [|done].
    destruct a as [|[|a]]; [reflexivity|reflexivity|lia].
Defined.

(** C1 on an update of the sample tree: one page fetched, one cached, one
    failed after four attempts and one task cancelled; four entries. *)
Lemma run_build_counts_sum_witness :
  let c := {| success_count := 1; cached_count := 1; fail_count := 2 |} in
  run_build default_scraper Sample.parse Sample.strftime Sample.targz ArgUpdate
    Sample.manifest Sample.net (Sample.at_time 1800)
  = (inr (Some c),
     (run_build default_scraper Sample.parse Sample.strftime Sample.targz ArgUpdate
        Sample.manifest Sample.net (Sample.at_time 1800)).2)
  /\ success_count c + cached_count c + fail_count c = len Sample.entries.
Proof.
  intros c.
  assert (Hrun : run_build default_scraper Sample.parse Sample.strftime Sample.targz
                   ArgUpdate Sample.manifest Sample.net (Sample.at_time 1800)
                 = (inr (Some c),
                    (run_build default_scraper Sample.parse Sample.strftime Sample.targz
                       ArgUpdate Sample.manifest Sample.net (Sample.at_time 1800)).2)).
  { vm_compute. reflexivity. }
  split; [exact Hrun|].
  destruct (run_build_counts_sum default_scraper Sample.parse Sample.strftime Sample.targz
              ArgUpdate Sample.manifest Sample.net (Sample.at_time 1800) c _ Hrun)
    as (new_text & w1 & results & _ & _ & _ & _ & Hsum & _).
  exact Hsum.
Defined.


(** C10 on an initial build over the sample tree, which has no [llms.txt]:
    the decision is true and the build completes after the backup and the
    removal of the tree; the old page is gone and the archive is in its
    file when the tasks start. *)
Lemma init_build_without_sentinel_witness :
  should_do_full_rebuild default_scraper Sample.tree 1800 = true
  /\ exists w2 results,
       trace w2
       = [EvManifestGet "https://docs.anthropic.com/llms.txt"; EvOpen llms_file;
          EvBackup "docs_backup_20260101_000000.tar.gz";
          EvOpen (Pathlib.Path "docs_backup_20260101_000000.tar.gz");
          EvRmtree Sample.docs; EvMkdir Sample.docs]
       /\ fs w2 !! Sample.setup = None
       /\ fs w2 !! Pathlib.Path "docs_backup_20260101_000000.tar.gz"
          = Some (File "archive" 1800)
       /\ (init_build_async default_scraper Sample.parse Sample.strftime Sample.targz
             Sample.manifest Sample.net (Sample.at_time 1800)).1
          = inr (count_results results).
Proof.
  destruct (init_build_without_sentinel default_scraper Sample.parse Sample.strftime
              Sample.targz Sample.manifest Sample.net (Sample.at_time 1800) "## Docs"
              (init_build_async default_scraper Sample.parse Sample.strftime Sample.targz
                 Sample.manifest Sample.net (Sample.at_time 1800)).1
              (init_build_async default_scraper Sample.parse Sample.strftime Sample.targz
                 Sample.manifest Sample.net (Sample.at_time 1800)).2)
    as [Hreb Hrun]; [vm_compute; reflexivity|vm_compute; reflexivity|].
  split; [exact Hreb|].
  destruct Hrun as [_ [(e & He & _)|(wb & _ & _ & [(e & tail & He & _)|Hdone])]];
    [reflexivity|apply surjective_pairing| | |].
  - vm_compute in He. discriminate He.
  - vm_compute in He. discriminate He.
  - destruct Hdone as (m3 & w2 & results & _ & _ & Htr & Hgone & Harch & _ & Hr).
    exists w2, results. split; [exact Htr|]. split; [|split; [|exact Hr]].
    + apply Hgone; [vm_compute; reflexivity|discriminate].
    + apply Harch. vm_compute. reflexivity.
Defined.

(** * Further properties of the code *)

(** ** Strings *)

Lemma append_cons a s t : String a s +:+ t = String a (s +:+ t).
Proof. reflexivity. Qed.

Lemma length_append s t : String.length (s +:+ t) = (String.length s + String.length t)%nat.
Proof. induction s as [|a s IH]; [done|]. rewrite append_cons. cbn. by rewrite IH. Qed.

Lemma substring_all s : substring 0 (String.length s) s = s.
Proof. induction s as [|a s IH]; [done|]. cbn. by rewrite IH. Qed.

Lemma substring_append s t :
  substring (String.length s) (String.length t) (s +:+ t) = t.
Proof.
  induction s as [|a s IH]; [apply substring_all|].
  rewrite append_cons. exact IH.
Qed.

Lemma endswith_append s suffix : PyStr.endswith (s +:+ suffix) suffix = true.
Proof.
  unfold PyStr.endswith. rewrite length_append.
  replace (String.length s + String.length suffix - String.length suffix)%nat
    with (String.length s) by lia.
  rewrite substring_append, String.eqb_refl, andb_true_r.
  apply Nat.leb_le. lia.
Qed.

Lemma has_char_append c s t :
  PyStr.has_char c (s +:+ t) = PyStr.has_char c s || PyStr.has_char c t.
Proof.
  induction s as [|a s IH]; [done|].
  rewrite append_cons. cbn. rewrite IH. by rewrite orb_assoc.
Qed.

(** The pieces of [s.split(c)] do not hold the separator. *)
Lemma split_no_sep c s : Forall (fun x => PyStr.has_char c x = false) (PyStr.split c s).
Proof.
  induction s as [|a s IH]; cbn.
  - by repeat constructor.
  - destruct (Ascii.eqb a c) eqn:Ha.
    + by constructor.
    + destruct (PyStr.split c s) as [|h t]; [by repeat constructor; cbn; rewrite Ha|].
      inversion_clear IH. constructor; [|done]. cbn. by rewrite Ha.
Qed.

(** A string without the separator is its own single piece. *)
Lemma split_single c s : PyStr.has_char c s = false -> PyStr.split c s = [s].
Proof.
  induction s as [|a s IH]; [done|]. cbn.
  destruct (Ascii.eqb a c); [done|]. cbn. intros H. by rewrite IH.
Qed.

Lemma path_parts_no_slash parsed_path :
  Forall (fun x => PyStr.has_char "/" x = false) (path_parts_of parsed_path).
Proof.
  unfold path_parts_of.
  pose proof (split_no_sep "/" (PyStr.strip "/" parsed_path)) as H.
  destruct (PyStr.split "/" (PyStr.strip "/" parsed_path)) as [|first rest]; [done|].
  destruct (String.eqb first "en"); [by inversion H|done].
Qed.

(** ** The path mapper *)

(** A relative right operand is appended. *)
Lemma truediv_relative p s :
  Pathlib.splitroot s = "" ->
  p </> s = MkPath (root p) (parts p ++ parts (Pathlib.Path s)).
Proof. unfold Pathlib.truediv. cbn. by intros ->. Qed.

Lemma splitroot_no_slash s : PyStr.has_char "/" s = false -> Pathlib.splitroot s = "".
Proof.
  destruct s as [|a s]; [done|]. cbn.
  destruct (Ascii.eqb a "/") eqn:Ha; [done|]. intros _.
  unfold Pathlib.splitroot.
  destruct a as [[] [] [] [] [] [] [] []]; try done.
Qed.

(** A file name without a slash that ends in [.md] is one part of a path. *)
Lemma truediv_filename p f :
  PyStr.has_char "/" f = false -> PyStr.endswith f ".md" = true ->
  p </> f = MkPath (root p) (parts p ++ [f]).
Proof.
  intros Hs Hmd. rewrite truediv_relative by by apply splitroot_no_slash.
  do 2 f_equal. unfold Pathlib.Path. cbn [parts]. rewrite split_single by done.
  cbn. unfold Pathlib.keep_part.
  destruct (String.eqb_spec f "") as [->|_]; [done|].
  destruct (String.eqb_spec f ".") as [->|_]; [done|]. done.
Qed.

Lemma filename_of_md path_parts :
  Forall (fun x => PyStr.has_char "/" x = false) path_parts ->
  PyStr.has_char "/" (filename_of path_parts) = false
  /\ PyStr.endswith (filename_of path_parts) ".md" = true.
Proof.
  intros Hall. unfold filename_of. destruct path_parts as [|x l]; [done|].
  assert (Hlast : PyStr.has_char "/" (List.last (x :: l) "") = false).
  { assert (Hin : In (List.last (x :: l) "") (x :: l)).
    { destruct (exists_last (l:=x :: l)) as (l' & y & ->); [done|].
      rewrite last_last. apply in_or_app. right. by left. }
    rewrite List.Forall_forall in Hall. by apply Hall. }
  cbv zeta. destruct (PyStr.endswith (List.last (x :: l) "") ".md") eqn:Hmd; cbn [negb].
  - done.
  - split; [by rewrite has_char_append, Hlast|apply endswith_append].
Qed.

Lemma url_to_path_filename base url section :
  exists dir_path,
    url_to_path base url section
    = dir_path </> filename_of (path_parts_of (UrlParse.path url))
    /\ dir_path
       = if negb (String.eqb section "") && negb (String.eqb section "docs")
         then base </> section
                </> PyStr.join "/" (PyStr.but_last (path_parts_of (UrlParse.path url)))
         else base </> PyStr.join "/" (PyStr.but_last (path_parts_of (UrlParse.path url))).
Proof. eexists. split; reflexivity. Qed.

(** X1.  Whatever the URL, the section and the base directory, the mapped
    path has a last part, which ends in [.md] and holds no slash; in
    particular it is never the local copy of the manifest. *)
Theorem url_to_path_name_md base url section :
  let p := url_to_path base url section in
  PyStr.endswith (Pathlib.name p) ".md" = true
  /\ PyStr.has_char "/" (Pathlib.name p) = false
  /\ parts p = parts (Pathlib.parent p) ++ [Pathlib.name p]
  /\ p <> llms_file.
Proof.
  destruct (url_to_path_filename base url section) as (dir_path & -> & _).
  destruct (filename_of_md _ (path_parts_no_slash (UrlParse.path url))) as [Hs Hmd].
  cbv zeta. rewrite truediv_filename by done.
  unfold Pathlib.name, Pathlib.parent. cbn [parts root].
  rewrite last_last, removelast_last. repeat split; try done.
  intros Heq. apply (f_equal Pathlib.name) in Heq.
  unfold Pathlib.name in Heq. cbn [parts] in Heq. rewrite last_last in Heq.
  rewrite Heq in Hmd. vm_compute in Hmd. discriminate Hmd.
Qed.

Lemma splitroot_append s t :
  s <> "" -> PyStr.has_char "/" s = false -> Pathlib.splitroot (s +:+ t) = "".
Proof.
  destruct s as [|a s]; [done|]. intros _. cbn.
  destruct (Ascii.eqb a "/") eqn:Ha; [done|]. intros _.
  rewrite append_cons. unfold Pathlib.splitroot.
  destruct a as [[] [] [] [] [] [] [] []]; try done.
Qed.

Lemma splitroot_join l :
  Forall (fun x => x <> "") l -> Forall (fun x => PyStr.has_char "/" x = false) l ->
  Pathlib.splitroot (PyStr.join "/" l) = "".
Proof.
  destruct l as [|x l]; [done|]. intros Hne Hs.
  inversion_clear Hne. inversion_clear Hs.
  unfold PyStr.join. cbn [concat]. destruct l.
  - by apply splitroot_no_slash.
  - by apply splitroot_append.
Qed.

Lemma Forall_removelast {A} (P : A -> Prop) l : Forall P l -> Forall P (removelast l).
Proof.
  induction 1 as [|x l Hx Hl IH]; [done|]. cbn. destruct l; [done|]. by constructor.
Qed.

Lemma splitroot_not_startswith s :
  Manifest.startswith s "/" = false -> Pathlib.splitroot s = "".
Proof.
  destruct s as [|a s]; [done|]. unfold Manifest.startswith. cbn.
  destruct (ascii_dec "/" a) as [<-|Hne]; [by destruct s|]. intros _.
  unfold Pathlib.splitroot.
  destruct a as [[] [] [] [] [] [] [] []]; try done.
Qed.

(** X2.  When the section does not begin with a slash and no directory
    segment of the URL path is empty, the mapped path keeps the root of the
    base directory and its parts extend those of the base directory: it is
    the base directory or, lexically, a path below it. *)
Theorem url_to_path_within_base base url section :
  Manifest.startswith section "/" = false ->
  Forall (fun x => x <> "") (PyStr.but_last (path_parts_of (UrlParse.path url))) ->
  FS.within base (url_to_path base url section) = true.
Proof.
  intros Hsec Hsegs.
  destruct (url_to_path_filename base url section) as (dir_path & -> & Hdir).
  destruct (filename_of_md _ (path_parts_no_slash (UrlParse.path url))) as [Hs Hmd].
  rewrite truediv_filename by done.
  assert (Hjoin : Pathlib.splitroot
                    (PyStr.join "/" (PyStr.but_last (path_parts_of (UrlParse.path url))))
                  = "").
  { apply splitroot_join; [done|].
    apply Forall_removelast, path_parts_no_slash. }
  assert (exists l, dir_path = MkPath (root base) (parts base ++ l)) as (l & ->).
  { rewrite Hdir. destruct (_ && _).
    - rewrite (truediv_relative base section) by by apply splitroot_not_startswith.
      rewrite truediv_relative by done. cbn [root parts].
      rewrite <- app_assoc. eauto.
    - rewrite truediv_relative by done. eauto. }
  unfold FS.within. cbn [root parts]. rewrite String.eqb_refl. cbn.
  apply bool_decide_eq_true. rewrite <- app_assoc. by apply prefix_app_r.
Qed.

(** X3.  The URL that is requested always ends in [.md]: a URL that already
    does is requested as it is, the suffix is added to any other, and doing
    it twice changes nothing. *)
Theorem download_url_of_md url :
  PyStr.endswith (download_url_of url) ".md" = true
  /\ download_url_of (download_url_of url) = download_url_of url
  /\ (PyStr.endswith url ".md" = true -> download_url_of url = url)
  /\ (PyStr.endswith url ".md" = false -> download_url_of url = url +:+ ".md").
Proof.
  assert (H : PyStr.endswith (download_url_of url) ".md" = true).
  { unfold download_url_of. destruct (PyStr.endswith url ".md") eqn:E; cbn [negb];
      [done|apply endswith_append]. }
  split; [done|]. split; [|split].
  - unfold download_url_of at 1. by rewrite H.
  - unfold download_url_of. by intros ->.
  - unfold download_url_of. by intros ->.
Qed.

(** ** What a download task does to the world *)

Lemma mkdir_chain_exists t r todo : forall done (m m1 : gmap PurePath node) q,
  FS.mkdir_chain t r done todo m = Some m1 ->
  FS.exists_ m q = true -> FS.exists_ m1 q = true.
Proof.
  induction todo as [|x todo IH]; intros done m m1 q; cbn [FS.mkdir_chain].
  - by intros [= <-].
  - cbv zeta. destruct (m !! MkPath r (done ++ [x])) as [[]|]; [|done|].
    + apply IH.
    + intros H Hq. eapply IH; [exact H|].
      by apply exists_insert, exists_touch_parent.
Qed.

Lemma mkdir_parents_run fault p w :
  exists r m1,
    mkdir_parents fault p w = (r, MkWorld m1 (now w) (trace w ++ [EvMkdir p]))
    /\ (forall q, FS.exists_ (fs w) q = true -> FS.exists_ m1 q = true)
    /\ (r = inr tt -> fault <> MkdirFault).
Proof.
  unfold mkdir_parents, fs_call, emit, time, get_fs, set_fs, raise.
  unfold mbind, M_bind. cbn [fst snd fs now trace].
  destruct fault; cbn [fst snd fs now trace];
    try (destruct (FS.mkdir_parents (now w) p (fs w)) as [m1|] eqn:Hmk;
         cbn [fst snd fs now trace];
         [exists (inr tt), m1; split; [done|]; split; [|done];
          intros q; by apply (mkdir_chain_exists _ _ _ _ _ _ _ Hmk)|]);
    eexists _, _; (split; [reflexivity|]); split; done.
Qed.

Lemma write_file_cases fault p content w :
  exists r m1,
    write_file fault p content w = (r, MkWorld m1 (now w) (trace w ++ [EvOpen p]))
    /\ (forall q, FS.exists_ (fs w) q = true -> FS.exists_ m1 q = true)
    /\ (r = inr tt ->
        (fault = NoFault \/ fault = MkdirFault)
        /\ m1 !! p = Some (File content (now w))).
Proof.
  unfold write_file, fs_call, emit, time, get_fs, set_fs, raise.
  unfold mbind, M_bind. cbn [fst snd fs now trace].
  destruct fault; cbn [fst snd fs now trace];
    try (destruct (FS.open_w (now w) p (fs w)) as [m1|] eqn:Hop;
         cbn [fst snd fs now trace]);
    eexists _, _; (split; [reflexivity|]); split; try done;
    try (intros q Hq; unfold FS.set_content; eauto using exists_insert, open_w_exists);
    intros _; (split; [auto|]); unfold FS.set_content; apply lookup_insert_eq.
Qed.

(** The body of the [try], whatever the environment answers: the clock
    stands still, nothing that existed is lost, the trace gets the request
    and then at most the making of the directory and the opening of the
    file; and when it runs to its end the response was complete, the disk
    did not fail, and the file holds the content received. *)
Lemma attempt_body_cases e url file_path w :
  let res := attempt_body e url file_path w in
  now res.2 = now w
  /\ (forall q, FS.exists_ (fs w) q = true -> FS.exists_ (fs res.2) q = true)
  /\ (exists evs,
        trace res.2 = trace w ++ EvGet (download_url_of url) :: evs
        /\ Forall (fun ev => ev = EvMkdir (Pathlib.parent file_path) \/ ev = EvOpen file_path)
             evs)
  /\ (res.1 = inr tt ->
      exists content is_binary,
        receive e = inr (content, is_binary) /\ disk e = NoFault
        /\ fs res.2 !! file_path = Some (File content (now w))).
Proof.
  unfold attempt_body. unfold mbind at 1 2, M_bind at 1 2. unfold emit, lift.
  cbn [fst snd fs now trace].
  destruct (receive e) as [ex|[content is_binary]]; cbn [fst snd fs now trace].
  { split; [done|]. split; [done|]. split; [|done]. exists []. done. }
  unfold mbind, M_bind.
  destruct (mkdir_parents_run (disk e) (Pathlib.parent file_path)
              (MkWorld (fs w) (now w) (trace w ++ [EvGet (download_url_of url)])))
    as (r1 & m1 & E1 & Hmono1 & Hr1).
  cbn [fs now trace] in E1, Hmono1. rewrite E1.
  destruct r1 as [ex|[]]; cbn [fst snd fs now trace].
  { split; [done|]. split; [done|]. split; [|done].
    exists [EvMkdir (Pathlib.parent file_path)].
    split; [by rewrite <- app_assoc|]. repeat constructor; auto. }
  destruct (write_file_cases (disk e) file_path content
              (MkWorld m1 (now w)
                 ((trace w ++ [EvGet (download_url_of url)])
                  ++ [EvMkdir (Pathlib.parent file_path)])))
    as (r2 & m2 & E2 & Hmono2 & Hr2).
  cbn [fs now trace] in E2, Hmono2, Hr2.
  assert ((if is_binary
           then write_file (disk e) file_path content
           else write_file (disk e) file_path content)
          = write_file (disk e) file_path content) as -> by by destruct is_binary.
  rewrite E2. cbn [fst snd fs now trace].
  split; [done|]. split; [auto|]. split.
  - exists [EvMkdir (Pathlib.parent file_path); EvOpen file_path].
    split; [by rewrite <- !app_assoc|]. constructor; [by left|].
    constructor; [by right|constructor].
  - intros Hr. destruct (Hr2 Hr) as [[Hd|Hd] Hfile]; [|by destruct Hr1].
    eauto 6.
Qed.

Lemma fs_events_facts q p evs :
  Forall (fun ev => ev = EvMkdir q \/ ev = EvOpen p) evs ->
  acquired evs = 0%nat /\ requests_of evs = []
  /\ Forall (fun ev => task_event ev = true) evs.
Proof.
  induction 1 as [|ev evs [-> | ->] _ (IH1 & IH2 & IH3)]; [done|..];
    (split; [exact IH1|]; split; [exact IH2|]; by constructor).
Qed.

Lemma requests_of_app tr1 tr2 : requests_of (tr1 ++ tr2) = requests_of tr1 ++ requests_of tr2.
Proof. unfold requests_of. apply omap_app. Qed.

Section Loop.

Variable env : nat -> attempt_env.
Variable url : string.
Variable file_path : PurePath.
Variable max_retries : Z.

Local Abbreviation loop := (for_attempt env url file_path max_retries).

(** What the loop returns: [True] or [False], or it lets through an
    exception that is not an [Exception]; and [True] only from an attempt
    whose response was complete and whose file was written. *)
Lemma for_attempt_result attempts : forall w,
  match (loop attempts w).1 with
  | inl e => is_Exception e = false
  | inr v => v = PyBool true \/ v = PyBool false
  end
  /\ ((loop attempts w).1 = inr (PyBool true) ->
      exists (k : nat) content is_binary,
        k ∈ attempts /\ receive (env k) = inr (content, is_binary)
        /\ disk (env k) = NoFault
        /\ fs (loop attempts w).2 !! file_path
           = Some (File content (now (loop attempts w).2))).
Proof.
  induction attempts as [|a attempts IH]; intros w.
  - cbn. split; [by right|done].
  - rewrite for_attempt_cons.
    destruct (attempt_body_cases (env a) url file_path (emit EvAcquire w).2)
      as (Hnow & _ & _ & Hok).
    destruct (attempt_body _ _ _ _) as [[e|[]] w1]; cbn [fst snd] in *.
    + destruct (is_Exception e) eqn:He; [destruct (_ <? _)|].
      * destruct (IH (sleep (2 ^ Z.of_nat a) w1).2) as [IH1 IH2].
        split; [exact IH1|]. intros Hr.
        destruct (IH2 Hr) as (k & content & b & Hk & ?). exists k, content, b.
        split; [by right|done].
      * cbn. split; [by right|done].
      * cbn. split; [by rewrite He|done].
    + cbn [fst snd]. split; [by left|]. intros _.
      destruct Hok as (content & b & Hrecv & Hdisk & Hfile); [done|].
      exists a, content, b. split; [by left|]. rewrite Hnow. done.
Qed.

(** The world after the loop: nothing that existed is lost, and the clock
    has moved forward by no more than the sleeps of the attempts made. *)
Lemma for_attempt_world attempts : forall w,
  (forall q, FS.exists_ (fs w) q = true -> FS.exists_ (fs (loop attempts w).2) q = true)
  /\ now w <= now (loop attempts w).2 <= now w + backoff_total max_retries attempts.
Proof.
  induction attempts as [|a attempts IH]; intros w.
  - cbn. split; [done|lia].
  - rewrite for_attempt_cons.
    destruct (attempt_body_cases (env a) url file_path (emit EvAcquire w).2)
      as (Hnow & Hmono & _ & _).
    cbn [backoff_total fold_right]. fold (backoff_total max_retries attempts).
    assert (0 <= backoff_total max_retries attempts) as Hpos.
    { clear. induction attempts as [|b l IHl]; cbn; [lia|].
      fold (backoff_total max_retries l). destruct (_ <? _); lia. }
    destruct (attempt_body _ _ _ _) as [[e|[]] w1]; cbn [fst snd emit fs now] in *.
    + destruct (is_Exception e); [destruct (_ <? _) eqn:Hlt|].
      * destruct (IH (sleep (2 ^ Z.of_nat a) w1).2) as [IH1 IH2].
        cbn [sleep snd fs now] in IH1, IH2 |- *. split; [auto|].
        assert (0 <= 2 ^ Z.of_nat a) by lia. lia.
      * cbn [snd]. split; [done|]. lia.
      * cbn [snd]. split; [done|]. destruct (_ <? _); lia.
    + split; [done|]. destruct (_ <? _); lia.
Qed.

(** The trace of the loop: events of a download task only, one permit for
    each request, at most one request for each attempt of the range, each
    for the URL of the call. *)
Lemma for_attempt_events attempts : forall w,
  exists evs,
    trace (loop attempts w).2 = trace w ++ evs
    /\ Forall (fun ev => task_event ev = true) evs
    /\ acquired evs = length (requests_of evs)
    /\ (length (requests_of evs) <= length attempts)%nat
    /\ Forall (fun u => u = download_url_of url) (requests_of evs).
Proof.
  induction attempts as [|a attempts IH]; intros w.
  - exists []. cbn. rewrite app_nil_r. repeat split; done.
  - rewrite for_attempt_cons.
    destruct (attempt_body_cases (env a) url file_path (emit EvAcquire w).2)
      as (_ & _ & (evs & Htr & Hevs) & _).
    destruct (fs_events_facts _ _ _ Hevs) as (Hacq & Hreq & Htask).
    assert (Hhere : forall tail,
              Forall (fun ev => task_event ev = true) tail ->
              acquired tail = length (requests_of tail) ->
              (length (requests_of tail) <= length attempts)%nat ->
              Forall (fun u => u = download_url_of url) (requests_of tail) ->
              Forall (fun ev => task_event ev = true)
                ([EvAcquire; EvGet (download_url_of url)] ++ evs ++ tail)
              /\ acquired ([EvAcquire; EvGet (download_url_of url)] ++ evs ++ tail)
                 = length (requests_of
                             ([EvAcquire; EvGet (download_url_of url)] ++ evs ++ tail))
              /\ (length (requests_of
                            ([EvAcquire; EvGet (download_url_of url)] ++ evs ++ tail))
                  <= length (a :: attempts))%nat
              /\ Forall (fun u => u = download_url_of url)
                   (requests_of ([EvAcquire; EvGet (download_url_of url)] ++ evs ++ tail))).
    { intros tail H1 H2 H3 H4.
      rewrite !acquired_app, !requests_of_app, Hacq, Hreq. cbn.
      split; [|split; [|split]].
      - repeat constructor. by apply Forall_app.
      - by rewrite H2.
      - lia.
      - by constructor. }
    destruct (attempt_body _ _ _ _) as [[e|[]] w1]; cbn [fst snd emit trace] in *.
    + destruct (is_Exception e); [destruct (_ <? _)|].
      * destruct (IH (sleep (2 ^ Z.of_nat a) w1).2) as (tail & Ht & H1 & H2 & H3 & H4).
        exists ([EvAcquire; EvGet (download_url_of url)] ++ evs
                ++ EvSleep (2 ^ Z.of_nat a) :: tail).
        split; [rewrite Ht; cbn [sleep snd trace]; rewrite Htr, <- !app_assoc; done|].
        apply Hhere; [by constructor|done|done|done].
      * exists ([EvAcquire; EvGet (download_url_of url)] ++ evs ++ []).
        split; [cbn [snd]; rewrite Htr, app_nil_r, <- !app_assoc; done|].
        apply Hhere; [done|done|cbn; lia|constructor].
      * exists ([EvAcquire; EvGet (download_url_of url)] ++ evs ++ []).
        split; [cbn [snd]; rewrite Htr, app_nil_r, <- !app_assoc; done|].
        apply Hhere; [done|done|cbn; lia|constructor].
    + exists ([EvAcquire; EvGet (download_url_of url)] ++ evs ++ []).
      split; [rewrite Htr, app_nil_r, <- !app_assoc; done|].
      apply Hhere; [done|done|cbn; lia|constructor].
Qed.

End Loop.

Lemma backoff_total_app max_retries l1 l2 :
  backoff_total max_retries (l1 ++ l2)
  = backoff_total max_retries l1 + backoff_total max_retries l2.
Proof.
  induction l1 as [|a l1 IH]; [done|]. cbn [app backoff_total fold_right].
  fold (backoff_total max_retries (l1 ++ l2)). fold (backoff_total max_retries l1).
  rewrite IH. lia.
Qed.

Lemma backoff_total_seq max_retries (n : nat) :
  Z.of_nat n <= max_retries -> backoff_total max_retries (seq 0 n) = 2 ^ Z.of_nat n - 1.
Proof.
  induction n as [|n IH]; [done|]. intros Hn.
  rewrite seq_S, backoff_total_app, IH by lia. cbn.
  assert ((Z.of_nat n <? max_retries) = true) as -> by (apply Z.ltb_lt; lia).
  rewrite Nat2Z.inj_succ, Z.pow_succ_r by lia. lia.
Qed.

(** The sleeps of a whole call add up to [2 ^ max_retries - 1] at most. *)
Lemma backoff_total_range max_retries :
  backoff_total max_retries (range (max_retries + 1)) = Z.max 0 (2 ^ max_retries - 1).
Proof.
  unfold range. destruct (Z.le_gt_cases 0 max_retries) as [Hpos|Hneg].
  - replace (Z.to_nat (max_retries + 1)) with (S (Z.to_nat max_retries)) by lia.
    rewrite seq_S, backoff_total_app, backoff_total_seq by lia. cbn.
    assert ((Z.of_nat (Z.to_nat max_retries) <? max_retries) = false) as ->
      by (apply Z.ltb_ge; lia).
    rewrite Z2Nat.id by done.
    assert (0 < 2 ^ max_retries) by (apply Z.pow_pos_nonneg; lia). lia.
  - replace (Z.to_nat (max_retries + 1)) with 0%nat by lia. cbn.
    rewrite Z.pow_neg_r by lia. done.
Qed.

(** X4.  What [download_file] gives back when it returns: [True], [False]
    or ["cached"] and nothing else; and ["cached"] is returned only by a
    call that was not forced, on a fresh file, and then the world is as it
    was.  (Nothing is said here of the exceptions that leave the call.) *)
Theorem download_file_result self env url (file_path : PurePath) force max_retries w :
  let res := download_file self env url file_path force max_retries w in
  match res.1 with
  | inl _ => True
  | inr (PyBool _) => True
  | inr (PyStr s) =>
      s = "cached" /\ force = false
      /\ is_file_recent self (fs w) (now w) file_path = true /\ res.2 = w
  | inr (PyExc _) => False
  end.
Proof.
  unfold download_file, mbind, M_bind, time, get_fs. cbn [fst snd].
  destruct (negb force && is_file_recent self (fs w) (now w) file_path) eqn:Hgate.
  - cbn. apply andb_true_iff in Hgate as [Hf%negb_true_iff Hr]. done.
  - destruct (for_attempt_result env url file_path max_retries
                (range (max_retries + 1)) w) as [Hres _].
    cbv zeta. destruct (for_attempt _ _ _ _ _ _) as [[e|v] w1]; cbn [fst] in *; [done|].
    by destruct Hres as [-> | ->].
Qed.

(** X5.  What [True] means.  A call that returns [True] has received a
    complete response at one of its attempts, without a fault of the disk,
    and the file at [file_path] holds the content of that response, stamped
    with the time at which the call ends.  With a positive cache window the
    file is then fresh: a call that is not forced returns ["cached"]
    without touching the world. *)
Theorem download_file_true_writes self env url (file_path : PurePath) force max_retries w w' :
  parts file_path <> [] ->
  download_file self env url file_path force max_retries w = (inr (PyBool true), w') ->
  (exists (k : nat) content is_binary,
      Z.of_nat k <= max_retries
      /\ receive (env k) = inr (content, is_binary) /\ disk (env k) = NoFault
      /\ fs w' !! file_path = Some (File content (now w')))
  /\ (0 < cache_seconds self ->
      forall env' url' max_retries',
        download_file self env' url' file_path false max_retries' w'
        = (inr (PyStr "cached"), w')).
Proof.
  intros Hparts Hrun.
  assert (Hloop : for_attempt env url file_path max_retries (range (max_retries + 1)) w
                  = (inr (PyBool true), w')).
  { revert Hrun. unfold download_file, mbind, M_bind, time, get_fs. cbn [fst snd].
    by destruct (negb force && _). }
  destruct (for_attempt_result env url file_path max_retries (range (max_retries + 1)) w)
    as [_ Hok].
  rewrite Hloop in Hok. cbn [fst snd] in Hok.
  destruct Hok as (k & content & b & Hk & Hrecv & Hdisk & Hfile); [done|].
  split.
  - exists k, content, b. apply elem_of_range in Hk. split; [lia|done].
  - intros Hwin env' url' max_retries'.
    unfold download_file, mbind, M_bind, time, get_fs. cbn [fst snd negb andb].
    assert (is_file_recent self (fs w') (now w') file_path = true) as ->; [|done].
    unfold is_file_recent, FS.exists_, FS.st_mtime, FS.stat.
    destruct (parts file_path); [done|]. rewrite Hfile. cbn.
    apply Z.ltb_lt. lia.
Qed.

(** X6.  What a call costs, whatever the environment answers.  Its events
    are those of a download task; every request is made under a permit of
    its own and asks for the URL of the call with [.md]; there are at most
    [max_retries + 1] requests (none for a negative [max_retries]); nothing
    that existed in the file system is lost; and the clock moves forward by
    at most [2 ^ max_retries - 1]. *)
Theorem download_file_cost self env url (file_path : PurePath) force max_retries w :
  let res := download_file self env url file_path force max_retries w in
  (exists evs,
      trace res.2 = trace w ++ evs
      /\ Forall (fun ev => task_event ev = true) evs
      /\ acquired evs = length (requests_of evs)
      /\ (length (requests_of evs) <= Z.to_nat (max_retries + 1))%nat
      /\ Forall (fun u => u = download_url_of url) (requests_of evs))
  /\ (forall q, FS.exists_ (fs w) q = true -> FS.exists_ (fs res.2) q = true)
  /\ now w <= now res.2 <= now w + Z.max 0 (2 ^ max_retries - 1).
Proof.
  unfold download_file, mbind, M_bind, time, get_fs. cbn [fst snd].
  destruct (negb force && is_file_recent self (fs w) (now w) file_path).
  - cbn. split; [|split; [done|lia]].
    exists []. rewrite app_nil_r. repeat split; try done. cbn. lia.
  - cbv zeta. split; [|rewrite <- backoff_total_range; apply for_attempt_world].
    destruct (for_attempt_events env url file_path max_retries
                (range (max_retries + 1)) w) as (evs & ? & ? & ? & Hlen & ?).
    exists evs. unfold range in Hlen. rewrite length_seq in Hlen. done.
Qed.

Lemma world_before_now env url file_path w (a : nat) :
  now (world_before env url file_path w a) = now w + 2 ^ Z.of_nat a - 1.
Proof.
  induction a as [|a IH]; [cbn; lia|].
  rewrite world_before_S. cbn [sleep snd now]. unfold attempt_run.
  destruct (attempt_body_cases (env a) url file_path
              (emit EvAcquire (world_before env url file_path w a)).2) as (-> & _).
  cbn [emit snd now]. rewrite IH, Nat2Z.inj_succ, Z.pow_succ_r by lia. lia.
Qed.

Lemma backoff_sum (a n : nat) :
  fold_right Z.add 0 (map (fun attempt : nat => 2 ^ Z.of_nat attempt) (seq a n))
  = 2 ^ Z.of_nat (a + n) - 2 ^ Z.of_nat a.
Proof.
  revert a. induction n as [|n IH]; intros a.
  - rewrite Nat.add_0_r. cbn. lia.
  - cbn [seq map fold_right]. rewrite IH.
    replace (a + S n)%nat with (S a + n)%nat by lia.
    rewrite (Nat2Z.inj_succ a), Z.pow_succ_r by lia. lia.
Qed.

(** X7.  The back-off of a call that fails throughout.  A call that gets
    past the cache check and fails at every attempt returns [False] after
    sleeps that add up to [2 ^ max_retries - 1] seconds (7 for the default
    of 3 retries), the last failure adding none; so it ends no earlier than
    that after it started. *)
Theorem download_file_worst_case self env url (file_path : PurePath) force max_retries w :
  0 <= max_retries ->
  negb force && is_file_recent self (fs w) (now w) file_path = false ->
  (forall a : nat, Z.of_nat a <= max_retries -> fails (attempt_run env url file_path w a)) ->
  let res := download_file self env url file_path force max_retries w in
  res.1 = inr (PyBool false)
  /\ (exists evs,
        trace res.2 = trace w ++ evs
        /\ fold_right Z.add 0 (sleeps_of evs) = 2 ^ max_retries - 1)
  /\ now w + 2 ^ max_retries - 1 <= now res.2.
Proof.
  intros Hmax Hgate Hfail.
  assert (Hres : download_file self env url file_path force max_retries w
                 = (inr (PyBool false),
                    (attempt_run env url file_path w (Z.to_nat max_retries)).2)).
  { unfold download_file, mbind, M_bind, time, get_fs. cbn [fst snd]. rewrite Hgate.
    rewrite (range_split max_retries (Z.to_nat max_retries)) by lia.
    rewrite for_attempt_from_zero; [|intros; apply Hfail; lia|lia].
    destruct (Hfail (Z.to_nat max_retries)) as (e & He & Hexc); [lia|].
    destruct (attempt_run _ _ _ _ _) as [r w1]. cbn [fst snd] in *. subst r.
    rewrite Hexc.
    assert ((Z.of_nat (Z.to_nat max_retries) <? max_retries) = false) as ->
      by (apply Z.ltb_ge; lia).
    done. }
  destruct (download_file_extends self env url file_path force max_retries w)
    as (evs & Hevs).
  cbv zeta. rewrite Hres in *. cbn [fst snd] in *.
  split; [done|]. split.
  - exists evs. split; [done|].
    pose proof (attempt_run_sleeps env url file_path w (Z.to_nat max_retries)) as Hs.
    rewrite Hevs in Hs. unfold sleeps_of in Hs. rewrite omap_app in Hs.
    apply app_inv_head in Hs. fold (sleeps_of evs) in Hs.
    rewrite Hs, backoff_sum, Nat.add_0_l, Z2Nat.id by done. cbn. lia.
  - pose proof (world_before_now env url file_path w (Z.to_nat max_retries)) as Hnow.
    unfold attempt_run.
    destruct (attempt_body_cases (env (Z.to_nat max_retries)) url file_path
                (emit EvAcquire (world_before env url file_path w (Z.to_nat max_retries))).2)
      as (Hn & _).
    rewrite Hn. cbn [emit snd now]. rewrite Hnow, Z2Nat.id by done. lia.
Qed.

(** ** What a batch does to the world *)

(** The events that ask the limiter or the network for something. *)
Lemma task_events_app evs1 evs2 :
  Forall (fun ev => task_event ev = true) evs1 ->
  Forall (fun ev => task_event ev = true) evs2 ->
  Forall (fun ev => task_event ev = true) (evs1 ++ evs2).
Proof. intros. by apply Forall_app. Qed.

(** A call as a task of a batch: what it gives back, its events and what
    it leaves of the file system, read off the loop. *)
Lemma download_file_task_facts self env url (file_path : PurePath) force max_retries w r w' :
  download_file self env url file_path force max_retries w = (r, w') ->
  match r with
  | inl e => is_Exception e = false
  | inr (PyBool _) => True
  | inr (PyStr s) => s = "cached" /\ force = false
  | inr (PyExc _) => False
  end
  /\ (exists evs,
        trace w' = trace w ++ evs
        /\ Forall (fun ev => task_event ev = true) evs
        /\ acquired evs = length (requests_of evs)
        /\ (length (requests_of evs) <= Z.to_nat (max_retries + 1))%nat)
  /\ (forall q, FS.exists_ (fs w) q = true -> FS.exists_ (fs w') q = true).
Proof.
  unfold download_file, mbind, M_bind, time, get_fs. cbn [fst snd].
  destruct (negb force && is_file_recent self (fs w) (now w) file_path) eqn:Hgate.
  - cbn. intros [= <- <-]. apply andb_true_iff in Hgate as [Hf%negb_true_iff _].
    split; [done|]. split; [|done].
    exists []. rewrite app_nil_r. repeat split; try done. cbn. lia.
  - destruct (for_attempt_result env url file_path max_retries
                (range (max_retries + 1)) w) as [Hres _].
    destruct (for_attempt_events env url file_path max_retries
                (range (max_retries + 1)) w) as (evs & Htr & Hev & Hacq & Hlen & _).
    destruct (for_attempt_world env url file_path max_retries
                (range (max_retries + 1)) w) as [Hmono _].
    intros Hrun. rewrite Hrun in *. cbn [fst snd] in *.
    split; [|split; [|done]].
    + destruct r as [e|v]; [done|]. by destruct Hres as [-> | ->].
    + exists evs. unfold range in Hlen. rewrite length_seq in Hlen. done.
Qed.

(** The results of a batch, its events and its file system.  Every result
    is [True], [False], ["cached"] or an exception that is not an
    [Exception], and a forced task never gives ["cached"]; the events are
    those of download tasks, one permit for each request, and with three
    retries there are at most four requests for each task; nothing that
    existed is lost. *)
Lemma gather_facts self net tasks : forall i w,
  let res := gather self net i tasks w in
  Forall2 (fun co result =>
             match result with
             | PyBool _ => True
             | PyStr s => s = "cached" /\ co_force co = false
             | PyExc e => is_Exception e = false
             end) tasks res.1
  /\ (exists evs,
        trace res.2 = trace w ++ evs
        /\ Forall (fun ev => task_event ev = true) evs
        /\ acquired evs = length (requests_of evs)
        /\ (Forall (fun co => co_max_retries co = 3) tasks ->
            (length (requests_of evs) <= 4 * length tasks)%nat))
  /\ (forall q, FS.exists_ (fs w) q = true -> FS.exists_ (fs res.2) q = true).
Proof.
  induction tasks as [|task tasks IH]; intros i w.
  - cbn. split; [constructor|]. split; [|done].
    exists []. rewrite app_nil_r. repeat split; done.
  - cbn [gather]. unfold run_coroutine.
    destruct (download_file _ _ _ _ _ _ _) as [r w1] eqn:Hrun. cbn [fst snd] in *.
    apply download_file_task_facts in Hrun
      as (Hres & (evs1 & Ht1 & Hev1 & Hacq1 & Hlen1) & Hmono1).
    destruct (IH (S i) w1) as (Hres2 & (evs2 & Ht2 & Hev2 & Hacq2 & Hlen2) & Hmono2).
    destruct (gather _ _ _ _ _) as [results w2]. cbn [fst snd] in *.
    split; [|split].
    + constructor; [|done]. by destruct r as [e|[b|s|e]].
    + exists (evs1 ++ evs2). split; [by rewrite Ht2, Ht1, <- app_assoc|].
      split; [by apply Forall_app|].
      rewrite acquired_app, requests_of_app, length_app, Hacq1, Hacq2.
      split; [done|]. intros Hall. inversion_clear Hall as [|? ? H3 Htl].
      rewrite H3 in Hlen1. specialize (Hlen2 Htl). cbn [length].
      change (Z.to_nat (3 + 1)) with 4%nat in Hlen1. lia.
    + auto.
Qed.

Lemma setup_events_facts evs :
  Forall (fun ev => setup_event ev = true) evs ->
  acquired evs = 0%nat /\ requests_of evs = [].
Proof. induction 1 as [|[] ? ? ? [IH1 IH2]]; by simplify_eq/=. Qed.

Lemma mkdir_exists t p (m m1 : gmap PurePath node) :
  FS.mkdir t p m = Some m1 ->
  FS.exists_ m1 p = true
  /\ (forall q, FS.exists_ m q = true -> FS.exists_ m1 q = true).
Proof.
  unfold FS.mkdir. destruct (FS.stat m p) as [[]|] eqn:Hst; [| |]; intros H; simplify_eq.
  - split; [|done]. unfold FS.exists_. by rewrite Hst.
  - destruct (FS.stat m (Pathlib.parent p)) as [[]|]; simplify_eq.
    split.
    + apply exists_iff. right. rewrite lookup_insert_eq. eauto.
    + intros q Hq. by apply exists_insert, exists_touch_parent.
Qed.

Section Builds.

Variable self : scraper.
Variable parse_manifest : string -> list url_info.
Variable strftime : Z -> string.
Variable targz : PurePath -> filesystem -> string.

Local Abbreviation fetch := (fetch_llms_txt self parse_manifest).
Local Abbreviation init_build := (init_build_async self parse_manifest strftime targz).
Local Abbreviation update_build := (update_build_async self parse_manifest).
Local Abbreviation build := (run_build self parse_manifest strftime targz).

(** The entries a run will work on: those of the text received, none when
    the manifest is not received. *)
Local Abbreviation entries_of manifest :=
  (match receive_manifest manifest with
   | inr new_text => parse_manifest new_text
   | inl _ => []
   end).

(** The manifest fetch, whatever happens: the request, then at most the
    opening of the local copy; the clock stands still and nothing that
    existed is lost.  When the manifest is not received the exception is
    raised and the file system is as it was; when the fetch returns, it
    returns the entries of the text received. *)
Lemma fetch_llms_txt_facts manifest w r w1 :
  fetch manifest w = (r, w1) ->
  now w1 = now w
  /\ (forall q, FS.exists_ (fs w) q = true -> FS.exists_ (fs w1) q = true)
  /\ (exists evs,
        trace w1 = trace w ++ EvManifestGet (llms_url self) :: evs
        /\ (evs = [] \/ evs = [EvOpen llms_file]))
  /\ (forall e, receive_manifest manifest = inl e ->
                r = inl e /\ fs w1 = fs w
                /\ trace w1 = trace w ++ [EvManifestGet (llms_url self)])
  /\ (forall urls, r = inr urls -> urls = entries_of manifest).
Proof.
  unfold fetch_llms_txt. intros H. do 3 step_bind H.
  unfold emit, lift, get_fs in H. cbn [fst snd fs now trace] in H.
  destruct (receive_manifest manifest) as [e|new_text]; cbn [fst snd fs now trace] in H.
  { injection H as <- <-. cbn [fs now trace].
    split; [done|]. split; [done|]. split; [eauto|]. split; [|done].
    by intros ? [= <-]. }
  destruct (write_file_cases NoFault llms_file new_text
              (MkWorld (fs w) (now w) (trace w ++ [EvManifestGet (llms_url self)])))
    as (rw & m1 & E & Hmono & _).
  cbn [fs now trace] in E, Hmono.
  assert (Hwritten : forall x : exn + list url_info,
            (rw = inr tt -> x = inr (parse_manifest new_text)) ->
            (forall e, rw = inl e -> x = inl e) ->
            (x, MkWorld m1 (now w)
                  ((trace w ++ [EvManifestGet (llms_url self)]) ++ [EvOpen llms_file]))
            = (r, w1) ->
            now w1 = now w
            /\ (forall q, FS.exists_ (fs w) q = true -> FS.exists_ (fs w1) q = true)
            /\ (exists evs,
                  trace w1 = trace w ++ EvManifestGet (llms_url self) :: evs
                  /\ (evs = [] \/ evs = [EvOpen llms_file]))
            /\ (forall e, inr new_text = inl e ->
                          r = inl e /\ fs w1 = fs w
                          /\ trace w1 = trace w ++ [EvManifestGet (llms_url self)])
            /\ (forall urls, r = inr urls -> urls = parse_manifest new_text)).
  { intros x Hx1 Hx2 [= <- <-]. cbn [fs now trace].
    split; [done|]. split; [done|].
    split; [exists [EvOpen llms_file]; rewrite <- app_assoc; eauto|].
    split; [done|]. intros urls ->. destruct rw as [e|[]].
    - by specialize (Hx2 e eq_refl).
    - by specialize (Hx1 eq_refl) as [= ->]. }
  assert (Hkept : forall x : exn + list url_info,
            (forall urls, x = inr urls -> urls = parse_manifest new_text) ->
            (x, MkWorld (fs w) (now w) (trace w ++ [EvManifestGet (llms_url self)]))
            = (r, w1) ->
            now w1 = now w
            /\ (forall q, FS.exists_ (fs w) q = true -> FS.exists_ (fs w1) q = true)
            /\ (exists evs,
                  trace w1 = trace w ++ EvManifestGet (llms_url self) :: evs
                  /\ (evs = [] \/ evs = [EvOpen llms_file]))
            /\ (forall e, inr new_text = inl e ->
                          r = inl e /\ fs w1 = fs w
                          /\ trace w1 = trace w ++ [EvManifestGet (llms_url self)])
            /\ (forall urls, r = inr urls -> urls = parse_manifest new_text)).
  { intros x Hx [= <- <-]. cbn [fs now trace].
    split; [done|]. split; [done|]. split; [eauto|]. split; done. }
  step_bind H.
  destruct (FS.exists_ (fs w) llms_file).
  - step_bind H. unfold read_text at 1 in H. step_bind H. unfold get_fs in H.
    cbn [fst snd fs now trace] in H.
    destruct (FS.stat (fs w) llms_file) as [[m|old_text m]|];
      unfold raise, mret, M_ret in H; cbn [fst snd fs now trace] in H.
    + by apply Hkept in H.
    + destruct (negb (String.eqb (universal_newlines old_text) new_text)).
      * rewrite E in H. destruct rw as [e|[]]; unfold mret, M_ret in H; cbn [fst snd] in H.
        -- apply Hwritten in H; [done|done|by intros ? [= ->]].
        -- apply Hwritten in H; [done|done|done].
      * unfold mret, M_ret in H; cbn [fst snd] in H. apply Hkept in H; [done|]. by intros ? [= <-].
    + by apply Hkept in H.
  - rewrite E in H. destruct rw as [e|[]]; unfold mret, M_ret in H; cbn [fst snd] in H.
    + apply Hwritten in H; [done|done|by intros ? [= ->]].
    + apply Hwritten in H; [done|done|done].
Qed.

Lemma stat_llms_file (m : gmap PurePath node) : FS.stat m llms_file = m !! llms_file.
Proof. reflexivity. Qed.

(** Text read in text mode holds no carriage return. *)
Lemma universal_newlines_no_cr s :
  PyStr.has_char "013" (universal_newlines s) = false.
Proof.
  enough (H : PyStr.has_char "013" (universal_newlines s) = false
              /\ forall c, PyStr.has_char "013" (universal_newlines (String c s)) = false)
    by apply H.
  induction s as [|a s [IH1 IH2]].
  - split; [done|]. intros c. cbn [universal_newlines].
    destruct (Ascii.eqb c "013") eqn:Hc; cbn [PyStr.has_char]; [done|].
    by rewrite Hc.
  - split; [apply IH2|]. intros c.
    change (universal_newlines (String c (String a s)))
      with (if Ascii.eqb c "013"
            then if Ascii.eqb a "010" then String "010" (universal_newlines s)
                 else String "010" (universal_newlines (String a s))
            else String c (universal_newlines (String a s))).
    destruct (Ascii.eqb c "013") eqn:Hc; [destruct (Ascii.eqb a "010")|];
      cbn [PyStr.has_char]; rewrite ?Hc, ?IH1, ?IH2; done.
Qed.

(** X8.  The local copy of the manifest after a fetch that returns.  The
    entries returned are those of the text received, and [llms.txt] holds
    that text, or a text that reads as it in text mode.  The copy is
    compared as it is read, that is with its line ends translated: when it
    reads as the text received, the file system is left as it was, time
    stamp included, so that a stale copy stays stale; when it reads as
    another text, or did not exist, it is written and stamped with the
    current time.  A text received with a carriage return never compares
    equal, so that it is written again at every fetch.  A directory in the
    place of the copy makes the fetch raise. *)
Theorem fetch_llms_txt_sentinel manifest w urls w1 :
  fetch manifest w = (inr urls, w1) ->
  exists new_text,
    receive_manifest manifest = inr new_text
    /\ urls = parse_manifest new_text
    /\ now w1 = now w
    /\ (exists stored m,
          fs w1 !! llms_file = Some (File stored m)
          /\ (stored = new_text \/ universal_newlines stored = new_text))
    /\ match fs w !! llms_file with
       | Some (File stored m) =>
           if String.eqb (universal_newlines stored) new_text
           then fs w1 = fs w /\ trace w1 = trace w ++ [EvManifestGet (llms_url self)]
           else fs w1 !! llms_file = Some (File new_text (now w))
       | Some (Dir _) => False
       | None => fs w1 !! llms_file = Some (File new_text (now w))
       end
    /\ (PyStr.has_char "013" new_text = true ->
        fs w1 !! llms_file = Some (File new_text (now w))).
Proof.
  unfold fetch_llms_txt. intros H. do 3 step_bind H.
  unfold emit, lift, get_fs in H. cbn [fst snd fs now trace] in H.
  destruct (receive_manifest manifest) as [e|new_text]; cbn [fst snd fs now trace] in H;
    [done|].
  exists new_text. split; [done|].
  destruct (write_file_cases NoFault llms_file new_text
              (MkWorld (fs w) (now w) (trace w ++ [EvManifestGet (llms_url self)])))
    as (rw & m1 & E & _ & Hfile).
  cbn [fs now trace] in E, Hfile.
  step_bind H. unfold FS.exists_ in H. rewrite stat_llms_file in H.
  destruct (fs w !! llms_file) as [[m|stored m]|] eqn:Hold.
  - step_bind H. unfold read_text at 1 in H. step_bind H. unfold get_fs in H.
    cbn [fst snd fs now trace] in H. rewrite stat_llms_file, Hold in H.
    by unfold raise in H.
  - step_bind H. unfold read_text at 1 in H. step_bind H. unfold get_fs in H.
    cbn [fst snd fs now trace] in H. rewrite stat_llms_file, Hold in H.
    unfold mret, M_ret in H. cbn [fst snd] in H.
    destruct (String.eqb_spec (universal_newlines stored) new_text) as [Heq|Hne];
      cbn [negb] in H.
    + injection H as <- <-. cbn [fs now trace].
      split; [done|]. split; [done|]. split; [eauto 6|]. split; [done|].
      intros Hcr. by rewrite <- Heq, universal_newlines_no_cr in Hcr.
    + rewrite E in H. destruct rw as [e|[]]; cbn [fst snd] in H; [done|].
      injection H as <- <-. cbn [fs now trace].
      destruct Hfile as [_ Hfile]; [done|]. eauto 10.
  - rewrite E in H. destruct rw as [e|[]]; unfold mret, M_ret in H; cbn [fst snd] in H;
      [done|].
    injection H as <- <-. cbn [fs now trace].
    destruct Hfile as [_ Hfile]; [done|]. eauto 10.
Qed.

(** *** The parts of an initial build *)

Lemma backup_docs_folder_facts w :
  exists r m1 evs,
    backup_docs_folder self strftime targz w = (r, MkWorld m1 (now w) (trace w ++ evs))
    /\ Forall (fun ev => setup_event ev = true) evs
    /\ (forall q, FS.exists_ (fs w) q = true -> FS.exists_ m1 q = true).
Proof.
  unfold backup_docs_folder. unfold mbind at 1, M_bind at 1. rewrite get_fs_run.
  destruct (negb (FS.exists_ (fs w) (base_dir self))).
  - exists (inr None), (fs w), []. rewrite app_nil_r. by destruct w.
  - unfold mbind at 1 2, M_bind at 1 2. rewrite time_run. cbv zeta.
    unfold emit at 1. cbn [fst snd fs now trace]. unfold mbind, M_bind.
    match goal with |- context [write_file NoFault ?p ?c ?w0] =>
      destruct (write_file_cases NoFault p c w0) as (rw & m1 & E & Hmono & _)
    end.
    cbn [fs now trace] in E, Hmono. rewrite E.
    destruct rw as [e|[]]; eexists _, m1, [_; _];
      (split; [rewrite <- app_assoc; reflexivity|]);
      (split; [by repeat constructor|done]).
Qed.

Lemma mkdir_base_facts p w :
  exists r m1,
    fs_call (fun t => FS.mkdir t p) w = (r, MkWorld m1 (now w) (trace w))
    /\ (forall q, FS.exists_ (fs w) q = true -> FS.exists_ m1 q = true)
    /\ (r = inr tt -> FS.exists_ m1 p = true).
Proof.
  unfold fs_call, time, get_fs, set_fs, raise. unfold mbind, M_bind.
  cbn [fst snd fs now trace].
  destruct (FS.mkdir (now w) p (fs w)) as [m1|] eqn:Hmk.
  - destruct (mkdir_exists _ _ _ _ Hmk). exists (inr tt), m1. done.
  - exists (inl (Exception "OSError")), (fs w). split; [by destruct w|done].
Qed.

(** The results of tasks that are all forced hold no ["cached"]. *)
Lemma forced_results_not_cached tasks results :
  Forall2 (fun co result =>
             match result with
             | PyBool _ => True
             | PyStr s => s = "cached" /\ co_force co = false
             | PyExc e => is_Exception e = false
             end) tasks results ->
  Forall (fun co => co_force co = true) tasks ->
  sum_1_for eq_cached results = 0.
Proof.
  induction 1 as [|co result tasks results Hr _ IH]; [done|].
  intros Hall. inversion_clear Hall as [|? ? Hf Htl]. cbn [sum_1_for fold_right].
  fold (sum_1_for eq_cached results). rewrite (IH Htl).
  destruct result as [b|s|e]; [done| |done]. destruct Hr as [_ Hr]. congruence.
Qed.

Lemma init_tasks_forced urls :
  Forall (fun co => co_force co = true) (init_tasks self urls)
  /\ Forall (fun co => co_max_retries co = 3) (init_tasks self urls).
Proof. unfold init_tasks. split; by apply Forall_fmap, Forall_true. Qed.

Lemma update_tasks_retries m urls :
  Forall (fun co => co_max_retries co = 3) (update_tasks self m urls).
Proof.
  unfold update_tasks. apply Forall_fmap, Forall_forall. intros url_info _.
  unfold compose. cbv zeta. by destruct (FS.exists_ _ _).
Qed.

(** From the making of the output directory to the counters. *)
Lemma init_tail_facts net urls w r w' :
  (emit (EvMkdir (base_dir self));;
   fs_call (fun t => FS.mkdir t (base_dir self));;
   let tasks := init_tasks self urls in
   results ← await_gather self net tasks;
   mret (count_results results)) w = (r, w') ->
  (forall q, FS.exists_ (fs w) q = true -> FS.exists_ (fs w') q = true)
  /\ (exists evs,
        trace w' = trace w ++ EvMkdir (base_dir self) :: evs
        /\ Forall (fun ev => task_event ev = true) evs
        /\ acquired evs = length (requests_of evs)
        /\ (length (requests_of evs) <= 4 * length urls)%nat)
  /\ (forall c, r = inr c ->
                cached_count c = 0 /\ FS.exists_ (fs w') (base_dir self) = true).
Proof.
  intros H. step_bind H. unfold emit at 1 in H. cbn [fst snd fs now trace] in H.
  step_bind H.
  match type of H with context [fs_call ?op ?w0] =>
    destruct (mkdir_base_facts (base_dir self) w0) as (rm & m1 & E & Hmono & Hbase);
    rewrite E in H; clear E
  end.
  cbn [fs now trace] in H, Hmono.
  destruct rm as [e|[]].
  { injection H as <- <-. cbn [fs trace]. split; [done|]. split; [|done].
    exists []. repeat split; try done. cbn. lia. }
  cbv zeta in H. unfold mbind, M_bind, await_gather in H.
  match type of H with context [gather self net 0 ?tasks ?w0] =>
    destruct (gather_facts self net tasks 0%nat w0)
      as (Hres & (evs & Htr & Hev & Hacq & Hlen) & Hmono2)
  end.
  destruct (gather _ _ _ _ _) as [results w2]. cbn [fst snd fs trace] in *.
  unfold mret, M_ret in H. injection H as <- <-.
  destruct (init_tasks_forced urls) as [Hforced Hretries].
  split; [auto|]. split.
  - exists evs. split; [by rewrite Htr, <- app_assoc|].
    split; [done|]. split; [done|].
    specialize (Hlen Hretries). by rewrite length_init_tasks in Hlen.
  - intros c [= <-]. split; [|auto].
    cbn. by eapply forced_results_not_cached.
Qed.

(** *** A whole build *)

(** An initial build, whatever happens.  Its trace is made of events of
    the setup followed by events of download tasks, with one permit for
    each request and at most four requests for each entry.  Without a
    rebuild the setup neither archives nor removes, and nothing that
    existed is lost.  When the manifest is not received the build raises
    and the file system is as it was.  When the build returns its
    counters, none of the entries is counted as cached and the output
    directory exists. *)
Lemma init_build_async_facts manifest net w r w' :
  init_build manifest net w = (r, w') ->
  (exists pre evs,
      trace w' = trace w ++ pre ++ evs
      /\ Forall (fun ev => setup_event ev = true) pre
      /\ Forall (fun ev => task_event ev = true) evs
      /\ acquired evs = length (requests_of evs)
      /\ (length (requests_of evs) <= 4 * length (entries_of manifest))%nat
      /\ (should_do_full_rebuild self (fs w) (now w) = false ->
          Forall (fun ev => rebuild_event ev = false) pre))
  /\ (should_do_full_rebuild self (fs w) (now w) = false ->
      forall q, FS.exists_ (fs w) q = true -> FS.exists_ (fs w') q = true)
  /\ (forall e, receive_manifest manifest = inl e ->
                r = inl e /\ fs w' = fs w
                /\ trace w' = trace w ++ [EvManifestGet (llms_url self)])
  /\ (forall c, r = inr c ->
                cached_count c = 0 /\ FS.exists_ (fs w') (base_dir self) = true).
Proof.
  unfold init_build_async. intros H. do 3 step_bind H.
  rewrite time_run, get_fs_run in H.
  destruct (fetch_llms_txt self parse_manifest manifest w) as [rf wf] eqn:Hf.
  apply fetch_llms_txt_facts in Hf
    as (Hnowf & Hmonof & (evsf & Htrf & Hshape) & Hunavail & Hurls).
  assert (Hsetupf : Forall (fun ev => setup_event ev = true)
                      (EvManifestGet (llms_url self) :: evsf)
                    /\ Forall (fun ev => rebuild_event ev = false)
                         (EvManifestGet (llms_url self) :: evsf)).
  { destruct Hshape as [-> | ->]; split; by repeat constructor. }
  destruct Hsetupf as [Hsetupf Hquietf].
  (* the build stops on an exception after the events [pre0] *)
  assert (Hstop : forall pre0 e wB,
            trace wB = trace w ++ pre0 ->
            Forall (fun ev => setup_event ev = true) pre0 ->
            (should_do_full_rebuild self (fs w) (now w) = false ->
             Forall (fun ev => rebuild_event ev = false) pre0
             /\ forall q, FS.exists_ (fs w) q = true -> FS.exists_ (fs wB) q = true) ->
            (inl e, wB) = (r, w') ->
            (exists pre evs,
                trace w' = trace w ++ pre ++ evs
                /\ Forall (fun ev => setup_event ev = true) pre
                /\ Forall (fun ev => task_event ev = true) evs
                /\ acquired evs = length (requests_of evs)
                /\ (length (requests_of evs) <= 4 * length (entries_of manifest))%nat
                /\ (should_do_full_rebuild self (fs w) (now w) = false ->
                    Forall (fun ev => rebuild_event ev = false) pre))
            /\ (should_do_full_rebuild self (fs w) (now w) = false ->
                forall q, FS.exists_ (fs w) q = true -> FS.exists_ (fs w') q = true)
            /\ (forall c, r = inr c ->
                          cached_count c = 0
                          /\ FS.exists_ (fs w') (base_dir self) = true)).
  { intros pre0 e wB Htr Hpre Hno [= <- <-]. split; [|split; [|done]].
    - exists pre0, []. rewrite app_nil_r. repeat split; try done.
      + cbn. lia.
      + intros Hsr. by apply Hno.
    - intros Hsr. by apply Hno. }
  destruct rf as [e|urls].
  { injection H as <- <-.
    destruct (Hstop (EvManifestGet (llms_url self) :: evsf) e wf) as (H1 & H2 & H3);
      [done|done|done|done|].
    split; [done|]. split; [done|]. split; [|done].
    intros e' He'. destruct (Hunavail e' He') as ([= <-] & ? & ?). done. }
  rewrite (Hurls urls eq_refl) in H. clear Hurls.
  assert (Hrecv : forall e, receive_manifest manifest = inl e -> False).
  { intros e He. by destruct (Hunavail e He) as [? _]. }
  (* the build goes on to its tasks after the events [pre0] *)
  assert (Hgo : forall pre0 wB,
            trace wB = trace w ++ pre0 ->
            Forall (fun ev => setup_event ev = true) pre0 ->
            (should_do_full_rebuild self (fs w) (now w) = false ->
             Forall (fun ev => rebuild_event ev = false) pre0
             /\ forall q, FS.exists_ (fs w) q = true -> FS.exists_ (fs wB) q = true) ->
            (emit (EvMkdir (base_dir self));;
             fs_call (fun t => FS.mkdir t (base_dir self));;
             let tasks := init_tasks self (entries_of manifest) in
             results ← await_gather self net tasks;
             mret (count_results results)) wB = (r, w') ->
            (exists pre evs,
                trace w' = trace w ++ pre ++ evs
                /\ Forall (fun ev => setup_event ev = true) pre
                /\ Forall (fun ev => task_event ev = true) evs
                /\ acquired evs = length (requests_of evs)
                /\ (length (requests_of evs) <= 4 * length (entries_of manifest))%nat
                /\ (should_do_full_rebuild self (fs w) (now w) = false ->
                    Forall (fun ev => rebuild_event ev = false) pre))
            /\ (should_do_full_rebuild self (fs w) (now w) = false ->
                forall q, FS.exists_ (fs w) q = true -> FS.exists_ (fs w') q = true)
            /\ (forall c, r = inr c ->
                          cached_count c = 0
                          /\ FS.exists_ (fs w') (base_dir self) = true)).
  { intros pre0 wB Htr Hpre Hno Htail.
    apply init_tail_facts in Htail as (Hmono & (evs & Htr' & Hev & Hacq & Hlen) & Hc).
    split; [|split; [|done]].
    - exists (pre0 ++ [EvMkdir (base_dir self)]), evs.
      split; [rewrite Htr', Htr, <- !app_assoc; done|].
      split; [apply Forall_app; split; [done|by repeat constructor]|].
      split; [done|]. split; [done|]. split; [done|].
      intros Hsr. apply Forall_app. split; [by apply Hno|by repeat constructor].
    - intros Hsr q Hq. apply Hmono. by apply Hno. }
  cut ((exists pre evs,
           trace w' = trace w ++ pre ++ evs
           /\ Forall (fun ev => setup_event ev = true) pre
           /\ Forall (fun ev => task_event ev = true) evs
           /\ acquired evs = length (requests_of evs)
           /\ (length (requests_of evs) <= 4 * length (entries_of manifest))%nat
           /\ (should_do_full_rebuild self (fs w) (now w) = false ->
               Forall (fun ev => rebuild_event ev = false) pre))
       /\ (should_do_full_rebuild self (fs w) (now w) = false ->
           forall q, FS.exists_ (fs w) q = true -> FS.exists_ (fs w') q = true)
       /\ (forall c, r = inr c ->
                     cached_count c = 0
                     /\ FS.exists_ (fs w') (base_dir self) = true)).
  { intros (H1 & H2 & H3). split; [done|]. split; [done|]. split; [|done].
    intros e He. by destruct (Hrecv e He). }
  clear Hunavail Hrecv. step_bind H.
  destruct (should_do_full_rebuild self (fs w) (now w)) eqn:Hsr.
  - (* with a rebuild *)
    do 2 step_bind H.
    destruct (backup_docs_folder_facts wf) as (rb & m1 & evsb & Eb & Hevb & _).
    rewrite Eb in H. clear Eb.
    destruct rb as [e|name].
    { eapply Hstop; [| | |exact H]; [cbn [trace]; rewrite Htrf, <- app_assoc; done| |done].
      rewrite ?Forall_app. repeat split; try done; by repeat constructor. }
    step_bind H. rewrite get_fs_run in H. cbn [fs] in H.
    destruct (FS.exists_ m1 (base_dir self)).
    + match type of H with context [rmtree ?p ?w0] =>
        destruct (rmtree_run p w0) as (rr & m3 & Er & _); rewrite Er in H; clear Er
      end.
      cbn [fs now trace] in H.
      destruct rr as [e|[]].
      * eapply Hstop; [| | |exact H];
          [cbn [trace]; rewrite Htrf, <- !app_assoc; done| |done].
        rewrite ?Forall_app. repeat split; try done; by repeat constructor.
      * eapply Hgo; [| | |exact H];
          [cbn [trace]; rewrite Htrf, <- !app_assoc; done| |done].
        rewrite ?Forall_app. repeat split; try done; by repeat constructor.
    + unfold mret, M_ret in H.
      eapply Hgo; [| | |exact H]; [cbn [trace]; rewrite Htrf, <- !app_assoc; done| |done].
      rewrite ?Forall_app. repeat split; try done; by repeat constructor.
  - (* without *)
    unfold mret at 1, M_ret at 1 in H.
    eapply Hgo; [| | |exact H]; [done|done|done].
Qed.

(** An update, whatever happens: as for an initial build, and its setup
    never archives nor removes. *)
Lemma update_build_async_facts manifest net w r w' :
  update_build manifest net w = (r, w') ->
  (exists pre evs,
      trace w' = trace w ++ pre ++ evs
      /\ Forall (fun ev => setup_event ev = true) pre
      /\ Forall (fun ev => rebuild_event ev = false) pre
      /\ Forall (fun ev => task_event ev = true) evs
      /\ acquired evs = length (requests_of evs)
      /\ (length (requests_of evs) <= 4 * length (entries_of manifest))%nat)
  /\ (forall q, FS.exists_ (fs w) q = true -> FS.exists_ (fs w') q = true)
  /\ (FS.exists_ (fs w) (base_dir self) = true ->
      forall e, receive_manifest manifest = inl e ->
                r = inl e /\ fs w' = fs w
                /\ trace w' = trace w ++ [EvManifestGet (llms_url self)]).
Proof.
  rewrite update_build_async_run.
  destruct (FS.exists_ (fs w) (base_dir self)); cbn [negb].
  2:{ intros [= <- <-]. split; [|done].
      exists [], []. rewrite !app_nil_r. repeat split; try done. cbn. lia. }
  destruct (fetch_llms_txt self parse_manifest manifest w) as [rf wf] eqn:Hf.
  apply fetch_llms_txt_facts in Hf
    as (Hnowf & Hmonof & (evsf & Htrf & Hshape) & Hunavail & Hurls).
  assert (Hsetupf : Forall (fun ev => setup_event ev = true)
                      (EvManifestGet (llms_url self) :: evsf)
                    /\ Forall (fun ev => rebuild_event ev = false)
                         (EvManifestGet (llms_url self) :: evsf)).
  { destruct Hshape as [-> | ->]; split; by repeat constructor. }
  destruct Hsetupf as [Hsetupf Hquietf].
  destruct rf as [e|urls].
  { intros [= <- <-]. split; [|split; [done|]].
    - exists (EvManifestGet (llms_url self) :: evsf), []. rewrite app_nil_r.
      repeat split; try done. cbn. lia.
    - intros _ e' He'. destruct (Hunavail e' He') as ([= <-] & ? & ?). done. }
  rewrite (Hurls urls eq_refl).
  destruct (gather_facts self net (update_tasks self (fs wf) (entries_of manifest)) 0%nat wf)
    as (_ & (evs & Htr & Hev & Hacq & Hlen) & Hmono).
  destruct (gather _ _ _ _ _) as [results w2]. cbn [fst snd] in *.
  intros [= <- <-]. split; [|split; [auto|]].
  - exists (EvManifestGet (llms_url self) :: evsf), evs.
    split; [by rewrite Htr, Htrf, <- app_assoc|].
    repeat split; try done.
    specialize (Hlen (update_tasks_retries _ _)).
    by rewrite length_update_tasks in Hlen.
  - intros _ e He. by destruct (Hunavail e He) as [? _].
Qed.

Lemma task_events_quiet evs :
  Forall (fun ev => task_event ev = true) evs ->
  Forall (fun ev => rebuild_event ev = false) evs.
Proof. intros H. eapply Forall_impl; [exact H|]. by intros []. Qed.

(** X9.  When the manifest is not received, a build raises what the request
    raised: it has sent that one request and nothing else has happened, no
    file written (the local copy of the manifest included), no backup, no
    removal, no task started.  This holds for an initial build and for an
    update over an existing output directory. *)
Theorem run_build_manifest_unavailable a manifest net w e :
  receive_manifest manifest = inl e ->
  a = ArgInit \/ FS.exists_ (fs w) (base_dir self) = true ->
  build a manifest net w
  = (inl e, MkWorld (fs w) (now w) (trace w ++ [EvManifestGet (llms_url self)])).
Proof.
  intros He Ha.
  assert (Hf : fetch manifest w
               = (inl e, MkWorld (fs w) (now w)
                           (trace w ++ [EvManifestGet (llms_url self)]))).
  { unfold fetch_llms_txt. unfold mbind, M_bind, emit, lift. cbn [fst snd].
    by rewrite He. }
  destruct a; unfold run_build.
  - unfold mbind at 1, M_bind at 1. unfold init_build_async.
    do 3 step_bind_goal. rewrite time_run, get_fs_run, Hf. done.
  - destruct Ha as [[=]|Hex]. rewrite update_build_async_run, Hex, Hf. done.
Qed.

(** X10.  What a build asks of the limiter and of the network, in either
    mode and whatever the environment answers: every request for a document
    is made under a permit of its own, and there are at most four requests
    for each entry of the manifest received (none when it is not
    received). *)
Theorem run_build_request_budget a manifest net w :
  let res := build a manifest net w in
  exists evs,
    trace res.2 = trace w ++ evs
    /\ acquired evs = length (requests_of evs)
    /\ (length (requests_of evs) <= 4 * length (entries_of manifest))%nat.
Proof.
  cbv zeta.
  assert (Hjoin : forall pre evs,
            Forall (fun ev => setup_event ev = true) pre ->
            acquired evs = length (requests_of evs) ->
            (length (requests_of evs) <= 4 * length (entries_of manifest))%nat ->
            acquired (pre ++ evs) = length (requests_of (pre ++ evs))
            /\ (length (requests_of (pre ++ evs))
                <= 4 * length (entries_of manifest))%nat).
  { intros pre evs Hpre Hacq Hlen.
    destruct (setup_events_facts _ Hpre) as [H1 H2].
    rewrite acquired_app, requests_of_app, H1, H2. done. }
  destruct a; unfold run_build.
  - unfold mbind at 1, M_bind at 1.
    destruct (init_build_async self parse_manifest strftime targz manifest net w)
      as [r w'] eqn:H.
    apply init_build_async_facts in H
      as ((pre & evs & Htr & Hpre & _ & Hacq & Hlen & _) & _).
    exists (pre ++ evs). split; [by destruct r|]. by apply Hjoin.
  - destruct (update_build_async self parse_manifest manifest net w) as [r w'] eqn:H.
    apply update_build_async_facts in H
      as ((pre & evs & Htr & Hpre & _ & _ & Hacq & Hlen) & _).
    exists (pre ++ evs). split; [done|]. by apply Hjoin.
Qed.

(** X11.  A build that does not rebuild destroys nothing.  In an update,
    and in an initial build whose rebuild decision is false, no backup is
    made and no tree removed, and every path that existed before the build
    exists after it, whether the build returns or raises. *)
Theorem run_build_keeps_files a manifest net w :
  a = ArgUpdate \/ should_do_full_rebuild self (fs w) (now w) = false ->
  let res := build a manifest net w in
  (forall q, FS.exists_ (fs w) q = true -> FS.exists_ (fs res.2) q = true)
  /\ exists evs,
       trace res.2 = trace w ++ evs
       /\ Forall (fun ev => rebuild_event ev = false) evs.
Proof.
  intros Ha. cbv zeta. destruct a; unfold run_build.
  - destruct Ha as [[=]|Hsr]. unfold mbind, M_bind.
    destruct (init_build_async self parse_manifest strftime targz manifest net w)
      as [r w'] eqn:H.
    apply init_build_async_facts in H
      as ((pre & evs & Htr & _ & Hev & _ & _ & Hquiet) & Hmono & _).
    assert (Hquiet' := Hquiet Hsr). assert (Hmono' := Hmono Hsr).
    destruct r; unfold mret, M_ret; cbn [fst snd]; (split; [done|]).
    all: exists (pre ++ evs); (split; [done|]).
    all: apply Forall_app; split; [done|by apply task_events_quiet].
  - destruct (update_build_async self parse_manifest manifest net w) as [r w'] eqn:H.
    apply update_build_async_facts in H
      as ((pre & evs & Htr & _ & Hquiet & Hev & _) & Hmono & _).
    split; [done|]. exists (pre ++ evs). split; [done|].
    apply Forall_app. split; [done|by apply task_events_quiet].
Qed.

(** X12.  An initial build that returns its counters has counted no entry
    as cached, every task being forced, and leaves the output directory in
    place. *)
Theorem init_build_async_counts manifest net w c w' :
  init_build manifest net w = (inr c, w') ->
  cached_count c = 0 /\ FS.exists_ (fs w') (base_dir self) = true.
Proof.
  intros H. apply init_build_async_facts in H as (_ & _ & _ & Hc). by apply Hc.
Qed.

(** X13.  What [backup_docs_folder] does.  Without the output directory
    it returns [None] and touches nothing.  When it returns a name, the
    output directory was there, the name is [docs_backup_] followed by the
    stamp of the current time and [.tar.gz], and the file of that name holds
    the archive of the tree as it was when the call began.  When it raises,
    the output directory was there.  In every case the clock stands still
    and no path that existed is lost. *)
Theorem backup_docs_folder_archive w r w' :
  backup_docs_folder self strftime targz w = (r, w') ->
  match r with
  | inr None => FS.exists_ (fs w) (base_dir self) = false /\ w' = w
  | inr (Some backup_name) =>
      FS.exists_ (fs w) (base_dir self) = true
      /\ backup_name = "docs_backup_" +:+ strftime (now w) +:+ ".tar.gz"
      /\ fs w' !! Pathlib.Path backup_name
         = Some (File (targz (base_dir self) (fs w)) (now w))
  | inl _ => FS.exists_ (fs w) (base_dir self) = true
  end
  /\ now w' = now w
  /\ (forall q, FS.exists_ (fs w) q = true -> FS.exists_ (fs w') q = true).
Proof.
  unfold backup_docs_folder. unfold mbind at 1, M_bind at 1. rewrite get_fs_run.
  destruct (FS.exists_ (fs w) (base_dir self)) eqn:Hex; cbn [negb].
  - unfold mbind at 1 2, M_bind at 1 2. rewrite time_run. cbv zeta.
    unfold emit at 1. cbn [fst snd fs now trace]. unfold mbind, M_bind.
    match goal with |- context [write_file NoFault ?p ?c ?w0] =>
      destruct (write_file_cases NoFault p c w0) as (rw & m1 & E & Hmono & Hfile)
    end.
    cbn [fs now trace] in E, Hmono, Hfile. rewrite E.
    destruct rw as [e|[]]; unfold mret, M_ret; intros [= <- <-];
      cbn [fs now]; [done|].
    destruct (Hfile eq_refl) as [_ ->]. done.
  - unfold mret, M_ret. by intros [= <- <-].
Qed.

End Builds.

(** ** The manifest parser *)

Lemma span_until_no_char c s x r :
  Manifest.span_until c s = Some (x, r) -> PyStr.has_char c x = false.
Proof.
  revert x r. induction s as [|a s IH]; intros x r; cbn [Manifest.span_until]; [done|].
  destruct (Ascii.eqb a c) eqn:Hac; [by intros [= <- <-]|].
  destruct (Manifest.span_until c s) as [[x' r']|]; [|done].
  intros [= <- <-]. cbn [PyStr.has_char]. rewrite Hac. by apply (IH x' r').
Qed.

Lemma match_after_bracket_groups s t u :
  Manifest.match_after_bracket s = Some (t, u) ->
  t <> "" /\ PyStr.has_char "]" t = false
  /\ u <> "" /\ PyStr.has_char ")" u = false.
Proof.
  unfold Manifest.match_after_bracket.
  destruct (Manifest.span_until "]" s) as [[x r]|] eqn:H1; [|done].
  destruct x as [|a x]; [done|].
  destruct r as [|b r]; [done|].
  destruct (Ascii.eqb_spec b "("); [subst b|].
  2:{ destruct b as [[] [] [] [] [] [] [] []]; try done. }
  cbn match. destruct (Manifest.span_until ")" r) as [[y r']|] eqn:H2; [|done].
  destruct y as [|b y]; [done|].
  intros [= <- <-].
  apply span_until_no_char in H1. apply span_until_no_char in H2. done.
Qed.

Lemma re_search_groups line t u :
  Manifest.re_search line = Some (t, u) ->
  t <> "" /\ PyStr.has_char "]" t = false
  /\ u <> "" /\ PyStr.has_char ")" u = false.
Proof.
  induction line as [|a line IH]; cbn [Manifest.re_search]; [done|].
  destruct (Ascii.eqb a "["); [|done].
  destruct (Manifest.match_after_bracket line) as [[t' u']|] eqn:H; [|done].
  intros [= <- <-]. by apply match_after_bracket_groups in H.
Qed.

Lemma replace_no_char a b s :
  a <> b -> PyStr.has_char a (Manifest.replace a b s) = false.
Proof.
  intros Hab. induction s as [|c s IH]; cbn [Manifest.replace PyStr.has_char]; [done|].
  rewrite IH, orb_false_r.
  destruct (Ascii.eqb_spec c a) as [->|Hca].
  - apply Ascii.eqb_neq. congruence.
  - by apply Ascii.eqb_neq.
Qed.

Lemma split_append c s t :
  PyStr.split c (s +:+ String c t) = PyStr.split c s ++ PyStr.split c t.
Proof.
  induction s as [|a s IH].
  - change ("" +:+ String c t) with (String c t). cbn [PyStr.split app].
    by rewrite Ascii.eqb_refl.
  - rewrite append_cons. cbn [PyStr.split app]. rewrite IH. destruct (Ascii.eqb a c); [done|].
    destruct (PyStr.split c s) eqn:Hs; [|done].
    by destruct s; cbn [PyStr.split] in Hs; repeat case_match.
Qed.

Section Parser.

Variable py_strip : string -> string.
Variable py_lower : string -> string.

Local Abbreviation scan := (Manifest.scan_line py_strip py_lower).
Local Abbreviation parse_text := (Manifest.parse py_strip py_lower).

Lemma scan_line_facts st raw :
  PyStr.has_char " " st.1 = false ->
  Forall entry_ok st.2 ->
  PyStr.has_char " " (scan st raw).1 = false
  /\ Forall entry_ok (scan st raw).2
  /\ (exists more, (scan st raw).2 = st.2 ++ more /\ (length more <= 1)%nat).
Proof.
  destruct st as [current urls]. cbn [fst snd]. intros Hsec Hok.
  assert (Hsame : exists more : list url_info,
             urls = urls ++ more /\ (length more <= 1)%nat).
  { exists []. rewrite app_nil_r. split; [done|cbn; lia]. }
  unfold Manifest.scan_line.
  destruct (Manifest.startswith (py_strip raw) "##"); cbn [fst snd].
  { split; [|done]. by apply replace_no_char. }
  destruct (_ && _); [|done].
  destruct (Manifest.re_search (py_strip raw)) as [[t u]|] eqn:Hre; [|done].
  cbn [fst snd]. apply re_search_groups in Hre as (? & ? & ? & ?).
  split; [done|]. split.
  - apply Forall_app. split; [done|]. by repeat constructor.
  - by eexists.
Qed.

Lemma scan_lines_facts lines st :
  PyStr.has_char " " st.1 = false ->
  Forall entry_ok st.2 ->
  Forall entry_ok (fold_left scan lines st).2
  /\ (exists more, (fold_left scan lines st).2 = st.2 ++ more
                   /\ (length more <= length lines)%nat).
Proof.
  revert st. induction lines as [|raw lines IH]; intros st Hsec Hok; cbn [fold_left].
  { split; [done|]. exists []. by rewrite app_nil_r. }
  destruct (scan_line_facts st raw Hsec Hok) as (Hsec' & Hok' & more & Hmore & Hlen).
  destruct (IH _ Hsec' Hok') as (Hall & more' & Hmore' & Hlen').
  split; [done|]. exists (more ++ more').
  rewrite Hmore', Hmore, <- app_assoc. split; [done|].
  rewrite length_app. cbn [length]. lia.
Qed.

(** X14.  What the parser hands to the builds, whatever the text: every
    entry has a title that is not empty and holds no closing bracket, a URL
    that is not empty and holds no closing parenthesis, and a section name
    without a space; and there is at most one entry for each line of the
    text. *)
Theorem parse_entries_wellformed new_text :
  Forall (fun u => title u <> "" /\ PyStr.has_char "]" (title u) = false
                   /\ url u <> "" /\ PyStr.has_char ")" (url u) = false
                   /\ PyStr.has_char " " (section u) = false)
    (parse_text new_text)
  /\ (length (parse_text new_text) <= length (PyStr.split "010" new_text))%nat.
Proof.
  unfold Manifest.parse.
  destruct (scan_lines_facts (PyStr.split "010" new_text) (EmptyString, []))
    as (Hall & more & Hmore & Hlen); [done|done|].
  split; [exact Hall|]. rewrite Hmore. done.
Qed.

(** X15.  The parser reads the text in order: the entries found in a text
    are found again, the same and in the same places, at the head of the
    entries of any text that continues it on a new line. *)
Theorem parse_extends new_text more_text :
  exists more,
    Manifest.parse py_strip py_lower (new_text +:+ String "010" more_text)
    = Manifest.parse py_strip py_lower new_text ++ more.
Proof.
  unfold Manifest.parse. rewrite split_append, fold_left_app.
  destruct (scan_lines_facts (PyStr.split "010" new_text) (EmptyString, []))
    as (Hall & found & Hfound & _); [done|done|].
  assert (Hgrow : forall lines st, exists more,
             (fold_left scan lines st).2 = st.2 ++ more).
  { induction lines as [|raw lines IH]; intros st; cbn [fold_left].
    - exists []. by rewrite app_nil_r.
    - destruct (IH (scan st raw)) as [m Hm]. rewrite Hm.
      assert (exists m0, (scan st raw).2 = st.2 ++ m0) as [m0 ->].
      { destruct st as [current urls]. unfold Manifest.scan_line. cbn [fst snd].
        repeat case_match; cbn [fst snd]; try by (exists []; rewrite app_nil_r).
        by eexists. }
      exists (m0 ++ m). by rewrite app_assoc. }
  apply Hgrow.
Qed.

End Parser.

(** * The further properties at work on the sample world *)

(** X2 on a page of the API reference. *)
Lemma url_to_path_within_base_witness :
  FS.within Sample.docs
    (url_to_path Sample.docs "https://docs.anthropic.com/en/api/messages" "api-reference")
  = true.
Proof.
  apply (url_to_path_within_base Sample.docs
           "https://docs.anthropic.com/en/api/messages" "api-reference").
  - reflexivity.
  - vm_compute. repeat first [apply Forall_nil_2 | apply Forall_cons_2; [discriminate|]].
Defined.

(** X5 on the page fetched at the third attempt: once written it is served
    from the cache, also by a server that refuses every connection. *)
Lemma download_file_true_writes_witness :
  let w' := (download_file default_scraper Sample.third_time
               "https://docs.anthropic.com/en/intro" Sample.intro true 3
               (Sample.at_time 1800)).2 in
  download_file default_scraper (fun _ => Sample.refuses)
    "https://docs.anthropic.com/en/intro" Sample.intro false 3 w'
  = (inr (PyStr "cached"), w').
Proof.
  intros w'.
  destruct (download_file_true_writes default_scraper Sample.third_time
              "https://docs.anthropic.com/en/intro" Sample.intro true 3
              (Sample.at_time 1800) w') as [_ Hcached].
  - vm_compute. discriminate.
  - vm_compute. reflexivity.
  - apply Hcached. reflexivity.
Defined.

(** X7 on four refusals: [False] after sleeps of 1, 2 and 4, not before
    time 1807. *)
Lemma download_file_worst_case_witness :
  let res := download_file default_scraper (fun _ => Sample.refuses)
               "https://docs.anthropic.com/en/intro" Sample.intro true 3
               (Sample.at_time 1800) in
  res.1 = inr (PyBool false) /\ 1807 <= now res.2.
Proof.
  intros res.
  destruct (download_file_worst_case default_scraper (fun _ => Sample.refuses)
              "https://docs.anthropic.com/en/intro" Sample.intro true 3
              (Sample.at_time 1800)) as (Hres & _ & Hnow).
  - lia.
  - reflexivity.
  - intros a _.
    by apply (attempt_run_no_response _ _ _ _ _ (Exception "ClientConnectorError")).
  - split; [exact Hres|exact Hnow].
Defined.

(** X8 on the sample manifest, read by the parser on ASCII text, in a
    directory without a local copy. *)
Lemma fetch_llms_txt_sentinel_witness :
  let w1 := (fetch_llms_txt default_scraper (Manifest.parse Manifest.strip Manifest.lower)
               sample_manifest (Sample.at_time 1800)).2 in
  fs w1 !! llms_file = Some (File sample_manifest_text 1800).
Proof.
  intros w1.
  destruct (fetch_llms_txt_sentinel default_scraper
              (Manifest.parse Manifest.strip Manifest.lower)
              sample_manifest (Sample.at_time 1800)
              (Manifest.parse Manifest.strip Manifest.lower sample_manifest_text) w1)
    as (new_text & Hrecv & _ & _ & _ & Hfile & _).
  - vm_compute. reflexivity.
  - injection Hrecv as <-. exact Hfile.
Defined.

(** X9 on an initial build over the sample tree when the server cannot be
    reached. *)
Lemma run_build_manifest_unavailable_witness :
  run_build default_scraper Sample.parse Sample.strftime Sample.targz ArgInit
    unreachable Sample.net (Sample.at_time 1800)
  = (inl (Exception "ClientConnectorError"),
     MkWorld Sample.tree 1800 [EvManifestGet "https://docs.anthropic.com/llms.txt"]).
Proof.
  apply (run_build_manifest_unavailable default_scraper Sample.parse Sample.strftime
           Sample.targz ArgInit unreachable Sample.net (Sample.at_time 1800)
           (Exception "ClientConnectorError")).
  - reflexivity.
  - left. reflexivity.
Defined.

(** X11 on an update of the sample tree: the old page is still there. *)
Lemma run_build_keeps_files_witness :
  FS.exists_
    (fs (run_build default_scraper Sample.parse Sample.strftime Sample.targz ArgUpdate
           Sample.manifest Sample.net (Sample.at_time 1800)).2)
    Sample.setup = true.
Proof.
  destruct (run_build_keeps_files default_scraper Sample.parse Sample.strftime
              Sample.targz ArgUpdate Sample.manifest Sample.net (Sample.at_time 1800))
    as [Hkeep _].
  - left. reflexivity.
  - apply Hkeep. vm_compute. reflexivity.
Defined.

(** X12 on an initial build over the sample tree: two pages fetched, two
    failures, none cached. *)
Lemma init_build_async_counts_witness :
  FS.exists_
    (fs (init_build_async default_scraper Sample.parse Sample.strftime Sample.targz
           Sample.manifest Sample.net (Sample.at_time 1800)).2)
    Sample.docs = true.
Proof.
  refine (proj2 (init_build_async_counts default_scraper Sample.parse Sample.strftime
                   Sample.targz Sample.manifest Sample.net (Sample.at_time 1800)
                   {| success_count := 2; cached_count := 0; fail_count := 2 |} _ _)).
  vm_compute. reflexivity.
Defined.

(** X13 on the sample tree at time 1800. *)
Lemma backup_docs_folder_archive_witness :
  fs (backup_docs_folder default_scraper Sample.strftime Sample.targz
        (Sample.at_time 1800)).2
  !! Pathlib.Path "docs_backup_20260101_000000.tar.gz"
  = Some (File "archive" 1800).
Proof.
  destruct (backup_docs_folder_archive default_scraper Sample.strftime Sample.targz
              (Sample.at_time 1800) (inr (Some "docs_backup_20260101_000000.tar.gz"))
              (backup_docs_folder default_scraper Sample.strftime Sample.targz
                 (Sample.at_time 1800)).2) as [(_ & _ & Hfile) _].
  - vm_compute. reflexivity.
  - exact Hfile.
Defined.
